(** * Pod Restart Tracker: a shallow embedding of [restart_tracker.py]

    The tracker is a small Flask service.  Its handlers read a pod
    snapshot, keep a per-container history of restart observations in a
    process-wide dictionary, derive a restart rate and a severity, and
    hand a notification to an HTTP transport.

    The embedding follows the Python text:
    - a Python [str] is the list of its code points;
    - a [datetime] is a number of microseconds (the resolution of the
      [datetime] type), a [timedelta] a difference of two of them;
    - the float that [total_seconds() / 60] and the rate are computed in
      is idealised as an exact rational;
    - a pod snapshot is the record of the fields the handlers read, a
      field that the JSON does not carry being [None]; event data that
      is not a dictionary is kept apart, since [.get] raises on it;
    - the two module-level dictionaries, the logger and the calls made to
      the outside are fields of a [World]; the clock, [kubectl] and the
      HTTP transport answer through an [Env] of oracles;
    - handlers are computations in a state-and-exception monad, so that
      [try]/[except] is a combinator and a raised exception keeps the
      mutations made before it, as in Python.

    Embedded are [send_ntfy_notification], [get_pod_logs],
    [analyze_restart_pattern], [process_pod_event] and the handlers of
    [/pods], [/health] and [/stats]. *)

From Stdlib Require Import ZArith NArith QArith Lia List Ascii String DecimalString.
From stdpp Require Import gmap list sorting.

Close Scope Q_scope.
Close Scope string_scope.

(** ** Python values *)

Module Py.

(** A Python [str]: the list of its code points. *)
Abbreviation str := (list N) (only parsing).

(** A string literal of the source whose characters are all ASCII. *)
Definition lit (s : String.string) : str :=
  List.map N_of_ascii (list_ascii_of_string s).

(** [s.encode('ascii', 'ignore').decode('ascii')]: the code points that
    the ASCII codec cannot encode are left out, the others are kept in
    place. *)
Definition ascii_ignore (s : str) : str :=
  List.filter (fun c => (c <? 128)%N) s.

(** [sep.join(parts)]. *)
Fixpoint join (sep : str) (parts : list str) : str :=
  match parts with
  | [] => []
  | [p] => p
  | p :: rest => p ++ sep ++ join sep rest
  end.

(** [str(n)] for an integer. *)
Definition str_of_int (n : Z) : str :=
  lit (NilZero.string_of_int (Z.to_int n)).

(** [s[-n:]] for a positive literal [n]: the last [n] elements, the
    whole of [s] when it is shorter. *)
Definition tail_slice {A} (n : nat) (s : list A) : list A :=
  drop (length s - n) s.

(** The UTF-8 encoding of one code point; surrogates and values above
    U+10FFFF have none ([UnicodeEncodeError] in Python). *)
Definition utf8_char (c : N) : option (list N) :=
  if (c <? 0x80)%N then Some [c]
  else if (c <? 0x800)%N then
    Some [N.lor 0xC0 (N.shiftr c 6); N.lor 0x80 (N.land c 0x3F)]
  else if (c <? 0x10000)%N then
    if ((0xD800 <=? c) && (c <=? 0xDFFF))%N then None
    else Some [N.lor 0xE0 (N.shiftr c 12);
               N.lor 0x80 (N.land (N.shiftr c 6) 0x3F);
               N.lor 0x80 (N.land c 0x3F)]
  else if (c <? 0x110000)%N then
    Some [N.lor 0xF0 (N.shiftr c 18);
          N.lor 0x80 (N.land (N.shiftr c 12) 0x3F);
          N.lor 0x80 (N.land (N.shiftr c 6) 0x3F);
          N.lor 0x80 (N.land c 0x3F)]
  else None.

(** [s.encode('utf-8')]. *)
Fixpoint encode_utf8 (s : str) : option (list N) :=
  match s with
  | [] => Some []
  | c :: rest =>
      match utf8_char c, encode_utf8 rest with
      | Some bs, Some bs' => Some (bs ++ bs')
      | _, _ => None
      end
  end.

(** Exceptions: a class and the text [str(e)] gives (abridged where
    Python names the offending object). *)
Inductive exn_class :=
| ZeroDivisionError | IndexError | AttributeError | UnicodeEncodeError
| OtherError.

Record exn := Exn { exn_kind : exn_class; exn_text : str }.

End Py.

Import Py.

(** ** Time *)

(** A [datetime], in microseconds. *)
Abbreviation datetime := Z (only parsing).

(** [timedelta(minutes=m)], in microseconds. *)
Definition timedelta_minutes (m : Z) : Z := (m * 60000000)%Z.

(** [td.total_seconds()]. *)
Definition total_seconds (td : Z) : Q := (inject_Z td / 1000000)%Q.

(** ** Configuration, read from the process environment at import *)

Record Config := {
  NTFY_URL : str;
  NTFY_TOPIC : str;
  CLUSTER_NAME : str;
  RESTART_THRESHOLD : Z;
  TIME_WINDOW_MINUTES : Z
}.

(** The values used when no variable is set. *)
Definition default_config : Config := {|
  NTFY_URL := lit "https://ntfy.sh";
  NTFY_TOPIC := lit "k8s-restart-tracker";
  CLUSTER_NAME := lit "kube.chalkan3.com.br";
  RESTART_THRESHOLD := 5;
  TIME_WINDOW_MINUTES := 60
|}.

(** ** The data the service handles *)

(** One element of a key's list in [restart_history]. *)
Record Observation := {
  timestamp : datetime;
  restart_count : Z
}.

(** What [requests.post] is called with. *)
Record HttpRequest := {
  req_url : str;
  req_data : list N;
  req_headers : list (str * str)
}.

(** What [requests.post] returns. *)
Record Response := {
  status_code : Z;
  text : str
}.

(** What [subprocess.run] returns. *)
Record CompletedProcess := {
  returncode : Z;
  stdout : str;
  stderr : str
}.

Inductive LogRecord :=
| LogInfo (msg : str)
| LogError (msg : str).

(** The mutable state of the process and the record of what it did to the
    outside.  [tick] counts the questions asked to the outside so far. *)
Record World := {
  restart_history : gmap str (list Observation);
  last_log_collected : gmap str datetime;
  tick : nat;
  logged : list LogRecord;
  kubectl_calls : list (str * str * str * Z);
  posted : list HttpRequest
}.

(** The state of a process that has just been started. *)
Definition initial_world : World := {|
  restart_history := ∅;
  last_log_collected := ∅;
  tick := 0;
  logged := [];
  kubectl_calls := [];
  posted := []
|}.

(** The outside: what the clock reads, what [kubectl] and the transport
    answer, for each question in the order they are asked. *)
Record Env := {
  clock : nat -> datetime;
  subprocess_run : nat -> exn + CompletedProcess;
  requests_post : nat -> exn + Response
}.

(** ** Computations *)

Inductive Result (A : Type) :=
| Ok (a : A)
| Raise (e : exn).
Arguments Ok {A} a.
Arguments Raise {A} e.

Definition M (A : Type) : Type := World -> Result A * World.

#[global] Instance M_ret : MRet M := fun A a w => (Ok a, w).

#[global] Instance M_bind : MBind M := fun A B f m w =>
  match m w with
  | (Ok a, w') => f a w'
  | (Raise e, w') => (Raise e, w')
  end.

Definition raise {A} (e : exn) : M A := fun w => (Raise e, w).

(** [try: body  except Exception as e: handler e]. *)
Definition try_except {A} (body : M A) (handler : exn -> M A) : M A :=
  fun w =>
    match body w with
    | (Ok a, w') => (Ok a, w')
    | (Raise e, w') => handler e w'
    end.

Definition gets {A} (f : World -> A) : M A := fun w => (Ok (f w), w).

Definition modify (f : World -> World) : M unit := fun w => (Ok tt, f w).

Definition set_restart_history (h : gmap str (list Observation)) (w : World) : World :=
  {| restart_history := h;
     last_log_collected := last_log_collected w;
     tick := tick w;
     logged := logged w;
     kubectl_calls := kubectl_calls w;
     posted := posted w |}.

Definition set_last_log_collected (l : gmap str datetime) (w : World) : World :=
  {| restart_history := restart_history w;
     last_log_collected := l;
     tick := tick w;
     logged := logged w;
     kubectl_calls := kubectl_calls w;
     posted := posted w |}.

Definition next_tick (w : World) : World :=
  {| restart_history := restart_history w;
     last_log_collected := last_log_collected w;
     tick := S (tick w);
     logged := logged w;
     kubectl_calls := kubectl_calls w;
     posted := posted w |}.

Definition add_log (r : LogRecord) (w : World) : World :=
  {| restart_history := restart_history w;
     last_log_collected := last_log_collected w;
     tick := tick w;
     logged := logged w ++ [r];
     kubectl_calls := kubectl_calls w;
     posted := posted w |}.

Definition add_kubectl_call (c : str * str * str * Z) (w : World) : World :=
  {| restart_history := restart_history w;
     last_log_collected := last_log_collected w;
     tick := tick w;
     logged := logged w;
     kubectl_calls := kubectl_calls w ++ [c];
     posted := posted w |}.

Definition add_posted (r : HttpRequest) (w : World) : World :=
  {| restart_history := restart_history w;
     last_log_collected := last_log_collected w;
     tick := tick w;
     logged := logged w;
     kubectl_calls := kubectl_calls w;
     posted := posted w ++ [r] |}.

(** [logger.info] and [logger.error]. *)
Definition logger_info (msg : str) : M unit := modify (add_log (LogInfo msg)).
Definition logger_error (msg : str) : M unit := modify (add_log (LogError msg)).

(** [a / b] on numbers. *)
Definition truediv (a b : Q) : M Q :=
  if Qeq_bool b 0 then raise (Exn ZeroDivisionError (lit "float division by zero"))
  else mret (a / b)%Q.

(** [l[i]] for a list, with Python's negative indices. *)
Definition getitem {A} (l : list A) (i : Z) : M A :=
  let j := if (i <? 0)%Z then (Z.of_nat (length l) + i)%Z else i in
  match (if (j <? 0)%Z then None else l !! Z.to_nat j) with
  | Some x => mret x
  | None => raise (Exn IndexError (lit "list index out of range"))
  end.

(** ** Inbound data *)

(** The [waiting] entry of a container's [state]. *)
Record Waiting := {
  waiting_reason : option str;
  waiting_message : option str
}.

(** The [terminated] entry of a container's [lastState]. *)
Record Terminated := {
  terminated_reason : option str;
  terminated_exitCode : option Z;
  terminated_message : option str
}.

(** One element of [status.containerStatuses]; a field that the snapshot
    does not carry is [None]. *)
Record ContainerStatus := {
  c_name : option str;
  c_restartCount : option Z;
  c_state_waiting : option Waiting;
  c_lastState_terminated : option Terminated
}.

(** A pod snapshot. *)
Record Pod := {
  metadata_name : option str;
  metadata_namespace : option str;
  status_phase : option str;
  status_containerStatuses : option (list ContainerStatus)
}.

(** The [data] of a CloudEvent: a pod snapshot, or something that is not
    a dictionary at all (no data, bytes, a JSON scalar or array). *)
Inductive EventData :=
| NotADict
| PodData (p : Pod).

Record CloudEvent := {
  ce_type : str;
  ce_data : EventData
}.

(** The request Flask hands to a handler. *)
Record FlaskRequest := {
  request_headers : list (str * str);
  request_data : list N
}.

(** The [tags] argument of the notifier: absent, a list, or one value
    that is not a list. *)
Inductive Tags :=
| TagsNone
| TagsList (l : list str)
| TagsOne (s : str).

(** [if tags:]. *)
Definition tags_truthy (tags : Tags) : bool :=
  match tags with
  | TagsNone => false
  | TagsList l => negb (bool_decide (l = []))
  | TagsOne s => negb (bool_decide (s = []))
  end.

(** [tags if isinstance(tags, list) else [tags]]. *)
Definition tags_as_list (tags : Tags) : list str :=
  match tags with
  | TagsNone => []
  | TagsList l => l
  | TagsOne s => [s]
  end.

(** The body of a JSON answer and its HTTP status. *)
Inductive Body :=
| StatusOk
| StatusError (message : option str).

(** The answer of [/health]. *)
Record HealthBody := {
  health_status : str;
  health_cluster : str;
  tracked_pods : nat
}.

(** One value of the dictionary [/stats] answers with; [last_seen] is the
    instant that the answer shows in ISO format. *)
Record StatsEntry := {
  total_events : nat;
  last_restart_count : Z;
  last_seen : datetime
}.

(** ** The service *)

Section Tracker.

Variable cfg : Config.
Variable env : Env.

(** [cloudevents.http.from_http]: the decoder of the event envelope. *)
Variable from_http : FlaskRequest -> exn + CloudEvent.

(** The rendering [f"{restart_rate:.2f}"] of the rate. *)
Variable format_rate : Q -> str.

Local Open Scope Z_scope.

(** [datetime.now()]. *)
Definition datetime_now : M datetime :=
  fun w => (Ok (clock env (tick w)), next_tick w).

(** [requests.post(url, data=..., headers=...)]. *)
Definition post (r : HttpRequest) : M Response :=
  fun w =>
    let w' := add_posted r (next_tick w) in
    match requests_post env (tick w) with
    | inl e => (Raise e, w')
    | inr resp => (Ok resp, w')
    end.

(** [subprocess.run(['kubectl', 'logs', '-n', namespace, pod_name,
    '-c', container_name, '--tail', str(lines)], ...)]. *)
Definition kubectl_logs (namespace pod_name container_name : str) (lines : Z)
  : M CompletedProcess :=
  fun w =>
    let w' := add_kubectl_call (namespace, pod_name, container_name, lines) (next_tick w) in
    match subprocess_run env (tick w) with
    | inl e => (Raise e, w')
    | inr result => (Ok result, w')
    end.

(** [message.encode('utf-8')]. *)
Definition encode (s : str) : M (list N) :=
  match encode_utf8 s with
  | Some bs => mret bs
  | None => raise (Exn UnicodeEncodeError (lit "surrogates not allowed"))
  end.

Definition send_ntfy_notification (title message priority : str) (tags : Tags)
  : M bool :=
  try_except
    (let title_clean := ascii_ignore title in
     message_clean ← encode message;
     let headers :=
       [(lit "Title", title_clean);
        (lit "Priority", priority);
        (lit "Content-Type", lit "text/plain; charset=utf-8")] in
     let headers :=
       if tags_truthy tags then
         let tags_clean := List.map ascii_ignore (tags_as_list tags) in
         headers ++ [(lit "Tags", join (lit ",") tags_clean)]
       else headers in
     response ← post {| req_url := NTFY_URL cfg ++ lit "/" ++ NTFY_TOPIC cfg;
                        req_data := message_clean;
                        req_headers := headers |};
     if status_code response =? 200 then
       logger_info (lit "Notificacao enviada: " ++ title_clean);;
       mret true
     else
       logger_error (lit "Erro ao enviar notificacao: "
                       ++ str_of_int (status_code response) ++ lit " - "
                       ++ text response);;
       mret false)
    (fun e =>
       logger_error (lit "Erro ao enviar notificacao: " ++ exn_text e);;
       mret false).

Definition get_pod_logs (namespace pod_name container_name : str) (lines : Z)
  : M str :=
  try_except
    (result ← kubectl_logs namespace pod_name container_name lines;
     if returncode result =? 0 then mret (stdout result)
     else mret (lit "Erro ao coletar logs: " ++ stderr result))
    (fun e =>
       logger_error (lit "Erro ao coletar logs: " ++ exn_text e);;
       mret (lit "Logs n" ++ [227%N] ++ lit "o dispon" ++ [237%N] ++ lit "veis")).

Definition analyze_restart_pattern (pod_key : str) (restart_count : Z) : M Q :=
  now ← datetime_now;
  modify (fun w =>
    set_restart_history
      (<[pod_key := (restart_history w !!! pod_key)
                      ++ [{| timestamp := now; restart_count := restart_count |}]]>
         (restart_history w)) w);;
  let cutoff_time := now - timedelta_minutes (TIME_WINDOW_MINUTES cfg) in
  modify (fun w =>
    set_restart_history
      (<[pod_key := List.filter (fun r => cutoff_time <? timestamp r)
                      (restart_history w !!! pod_key)]>
         (restart_history w)) w);;
  history ← gets (fun w => restart_history w !!! pod_key);
  if decide (1 < length history)%nat then
    newest ← getitem history (-1);
    oldest ← getitem history 0;
    let time_diff := (total_seconds (timestamp newest - timestamp oldest) / 60)%Q in
    if Qlt_le_dec 0 time_diff then
      restart_rate ← truediv (inject_Z (Z.of_nat (length history))) time_diff;
      mret restart_rate
    else mret 0%Q
  else mret 0%Q.

(** The severity of an alert (the three statements after
    [# Determinar severidade]). *)
Definition severity (restart_count : Z) : str :=
  let priority := lit "default" in
  let priority := if 10 <? restart_count then lit "high" else priority in
  let priority := if 20 <? restart_count then lit "max" else priority in
  priority.

(** A line break. *)
Definition nl : str := [10%N].

(** The text built from [state] and [lastState]. *)
Definition state_info_of (container : ContainerStatus) : str :=
  let state_info :=
    match c_state_waiting container with
    | Some wt =>
        (lit "Status: " ++ default (lit "Waiting") (waiting_reason wt) ++ nl)
          ++ lit "Mensagem: " ++ default (lit "N/A") (waiting_message wt) ++ nl
    | None => []
    end in
  match c_lastState_terminated container with
  | Some tm =>
      state_info
        ++ (nl ++ [218%N] ++ lit "ltima termina" ++ [231%N; 227%N] ++ lit "o:" ++ nl)
        ++ (lit "Raz" ++ [227%N] ++ lit "o: "
              ++ default (lit "Unknown") (terminated_reason tm) ++ nl)
        ++ (lit "Exit Code: "
              ++ from_option str_of_int (lit "N/A") (terminated_exitCode tm) ++ nl)
        ++ (lit "Mensagem: " ++ default (lit "N/A") (terminated_message tm) ++ nl)
  | None => state_info
  end.

(** The block after [# Tentar coletar logs se ainda nao coletamos
    recentemente]: the log excerpt of the alert, fetched unless the key
    has a last-collected time that is 300 seconds old or less. *)
Definition collect_log_snippet (namespace name container_name pod_key : str)
  : M str :=
  last_collected ← gets (fun w => last_log_collected w !! pod_key);
  due ← match last_collected with
        | None => mret true
        | Some t =>
            now ← datetime_now;
            mret (if Qlt_le_dec 300 (total_seconds (now - t)) then true else false)
        end;
  if due : bool then
    logs ← get_pod_logs namespace name container_name 50;
    if bool_decide (logs = []) then mret []
    else
      let log_snippet :=
        nl ++ lit "=== " ++ [218%N] ++ lit "LTIMAS LINHAS DO LOG ===" ++ nl
           ++ tail_slice 500 logs ++ nl in
      now ← datetime_now;
      modify (fun w =>
        set_last_log_collected (<[pod_key := now]> (last_log_collected w)) w);;
      mret log_snippet
  else mret [].

(** The text of the alert. *)
Definition alert_message (namespace name container_name : str) (restart_count : Z)
    (restart_rate : Q) (state_info log_snippet : str) : str :=
  concat
    [lit "=== POD COM RESTARTS EXCESSIVOS ==="; nl; nl;
     lit "Namespace: "; namespace; nl;
     lit "Pod: "; name; nl;
     lit "Container: "; container_name; nl;
     lit "Total de Restarts: "; str_of_int restart_count; nl;
     lit "Taxa de Restart: "; format_rate restart_rate; lit "/min"; nl; nl;
     state_info;
     log_snippet;
     nl; lit "Recomendacao:"; nl;
     lit "- Verificar logs completos: kubectl logs -n "; namespace; lit " "; name;
     lit " -c "; container_name; nl;
     lit "- Verificar eventos: kubectl describe pod -n "; namespace; lit " "; name; nl;
     lit "- Verificar recursos: kubectl top pod -n "; namespace; lit " "; name; nl].

(** [pod_key = f"{namespace}/{name}/{container_name}"]. *)
Definition pod_key_of (namespace name container_name : str) : str :=
  namespace ++ lit "/" ++ name ++ lit "/" ++ container_name.

(** The body of the loop over [container_statuses]. *)
Definition process_container (namespace name : str) (container : ContainerStatus)
  : M unit :=
  let container_name := default (lit "unknown") (c_name container) in
  let restart_count := default 0 (c_restartCount container) in
  let pod_key := pod_key_of namespace name container_name in
  if RESTART_THRESHOLD cfg <=? restart_count then
    restart_rate ← analyze_restart_pattern pod_key restart_count;
    let priority := severity restart_count in
    let state_info := state_info_of container in
    log_snippet ← collect_log_snippet namespace name container_name pod_key;
    let message :=
      alert_message namespace name container_name restart_count restart_rate
        state_info log_snippet in
    send_ntfy_notification
      (lit "ALERT: Pod Restarts - " ++ CLUSTER_NAME cfg)
      message priority
      (TagsList [lit "warning"; lit "rotating_light"]);;
    mret tt
  else mret tt.

(** [for x in l: body x]. *)
Fixpoint for_each {A} (l : list A) (body : A -> M unit) : M unit :=
  match l with
  | [] => mret tt
  | x :: rest => body x;; for_each rest body
  end.

(** [event_data.get(...)]: only a dictionary has [get]. *)
Definition event_dict (event_data : EventData) : M Pod :=
  match event_data with
  | PodData p => mret p
  | NotADict =>
      raise (Exn AttributeError (lit "object has no attribute 'get'"))
  end.

Definition process_pod_event (event_data : EventData) : M bool :=
  try_except
    (pod ← event_dict event_data;
     let name := default (lit "unknown") (metadata_name pod) in
     let namespace := default (lit "default") (metadata_namespace pod) in
     logger_info (lit "Pod restart check: " ++ namespace ++ lit "/" ++ name);;
     let container_statuses := default [] (status_containerStatuses pod) in
     for_each container_statuses (process_container namespace name);;
     mret true)
    (fun e =>
       logger_error (lit "Erro ao processar evento de Pod: " ++ exn_text e);;
       mret false).

(** [POST /pods]. *)
Definition handle_pod_event (request : FlaskRequest) : M (Body * Z) :=
  try_except
    (event ← match from_http request with
             | inl e => raise e
             | inr ev => mret ev
             end;
     logger_info (lit "Recebido evento de Pod: " ++ ce_type event);;
     success ← process_pod_event (ce_data event);
     if success : bool then mret (StatusOk, 200)
     else mret (StatusError None, 500))
    (fun e =>
       logger_error (lit "Erro ao processar requisi" ++ [231%N; 227%N] ++ lit "o: "
                       ++ exn_text e);;
       mret (StatusError (Some (exn_text e)), 500)).

(** [GET /health]. *)
Definition health : M (HealthBody * Z) :=
  tracked ← gets (fun w => size (restart_history w));
  mret ({| health_status := lit "healthy";
           health_cluster := CLUSTER_NAME cfg;
           tracked_pods := tracked |}, 200).

(** The value [/stats] gives for one history: nothing for an empty
    one ([if history:]), else its length and its last element. *)
Definition stats_entry (history : list Observation) : option StatsEntry :=
  match last history with
  | Some r => Some {| total_events := length history;
                      last_restart_count := restart_count r;
                      last_seen := timestamp r |}
  | None => None
  end.

(** [GET /stats]. *)
Definition stats : M (gmap str StatsEntry * Z) :=
  stats_data ← gets (fun w => omap stats_entry (restart_history w));
  mret (stats_data, 200).

End Tracker.

(** ** The test endpoint and the start of the process *)

(** The answer of [/test]. *)
Record TestBody := {
  test_status : str;
  test_message : str
}.

Section Diagnostics.

Variable cfg : Config.
Variable env : Env.

(** [strftime("%Y-%m-%d %H:%M:%S")] of a [datetime]. *)
Variable strftime : datetime -> str.

(** [POST /test]. *)
Definition test_notification : M (TestBody * Z) :=
  now ← datetime_now env;
  let timestamp := strftime now in
  tracked ← gets (fun w => size (restart_history w));
  send_ntfy_notification cfg env
    (lit "TEST - Restart Tracker - " ++ CLUSTER_NAME cfg)
    (concat
       [lit "=== TESTE DO RESTART TRACKER ==="; nl; nl;
        lit "Cluster: "; CLUSTER_NAME cfg; nl;
        lit "Status: Tracker funcionando corretamente"; nl;
        lit "Timestamp: "; timestamp; nl;
        lit "Threshold: "; str_of_int (RESTART_THRESHOLD cfg); lit " restarts"; nl;
        lit "Time Window: "; str_of_int (TIME_WINDOW_MINUTES cfg); lit " minutos"; nl; nl;
        lit "Pods rastreados: "; str_of_int (Z.of_nat tracked)])
    (lit "default")
    (TagsList [lit "bell"; lit "white_check_mark"]);;
  mret ({| test_status := lit "ok"; test_message := lit "Test notification sent" |},
        200%Z).

(** The block under [if __name__ == '__main__'], up to the start of the
    server. *)
Definition startup : M unit :=
  logger_info (lit "Iniciando Pod Restart Tracker");;
  logger_info (lit "Cluster: " ++ CLUSTER_NAME cfg);;
  logger_info (lit "ntfy URL: " ++ NTFY_URL cfg);;
  logger_info (lit "ntfy Topic: " ++ NTFY_TOPIC cfg);;
  logger_info (lit "Restart Threshold: " ++ str_of_int (RESTART_THRESHOLD cfg));;
  logger_info (lit "Time Window: " ++ str_of_int (TIME_WINDOW_MINUTES cfg)
                 ++ lit " minutos");;
  now ← datetime_now env;
  let timestamp := strftime now in
  send_ntfy_notification cfg env
    (lit "Restart Tracker STARTED - " ++ CLUSTER_NAME cfg)
    (concat
       [lit "=== RESTART TRACKER INICIADO ==="; nl; nl;
        lit "Cluster: "; CLUSTER_NAME cfg; nl;
        lit "Servico: Pod Restart Tracker iniciado"; nl;
        lit "Timestamp: "; timestamp; nl; nl;
        lit "Configuracao:"; nl;
        lit "- Threshold: "; str_of_int (RESTART_THRESHOLD cfg); lit " restarts"; nl;
        lit "- Time Window: "; str_of_int (TIME_WINDOW_MINUTES cfg); lit " minutos"; nl;
        lit "- Coleta de logs: Habilitada"])
    (lit "low")
    (TagsList [lit "rocket"; lit "information_source"]);;
  mret tt.

End Diagnostics.

(** ** Vocabulary of the statements *)

(** What a key's list is after [analyze_restart_pattern] has appended the
    observation of [now] to [old] and pruned. *)
Definition retained (cfg : Config) (now : datetime) (count : Z)
    (old : list Observation) : list Observation :=
  List.filter
    (fun r => (now - timedelta_minutes (TIME_WINDOW_MINUTES cfg) <? timestamp r)%Z)
    (old ++ [{| timestamp := now; restart_count := count |}]).

(** The minutes between the first and the last element of a history. *)
Definition elapsed_minutes (history : list Observation) : Q :=
  match last history, head history with
  | Some newest, Some oldest =>
      (total_seconds (timestamp newest - timestamp oldest) / 60)%Q
  | _, _ => 0%Q
  end.

(** The rate the analysis returns for the pruned history. *)
Definition rate_of (history : list Observation) : Q :=
  if decide (1 < length history)%nat then
    if Qlt_le_dec 0 (elapsed_minutes history) then
      (inject_Z (Z.of_nat (length history)) / elapsed_minutes history)%Q
    else 0%Q
  else 0%Q.

(** A history is in ascending order of timestamp. *)
Definition ascending (history : list Observation) : Prop :=
  StronglySorted (fun a b => (timestamp a <= timestamp b)%Z) history.

(** One analysis of the same key for each restart count of a list, in
    order. *)
Definition record_calls (cfg : Config) (env : Env) (pod_key : str)
    (counts : list Z) : M unit :=
  for_each counts (fun count => analyze_restart_pattern cfg env pod_key count;; mret tt).

(** The place of a priority on the notifier's scale, from [min] to
    [max]; 0 for a word that is not on it. *)
Definition priority_level (p : str) : nat :=
  if decide (p = lit "min") then 1
  else if decide (p = lit "low") then 2
  else if decide (p = lit "default") then 3
  else if decide (p = lit "high") then 4
  else if decide (p = lit "max") then 5
  else if decide (p = lit "urgent") then 5
  else 0.

(** The namespace, the name and the container statuses
    [process_pod_event] reads from a pod snapshot. *)
Definition pod_namespace (pod : Pod) : str :=
  default (lit "default") (metadata_namespace pod).
Definition pod_name (pod : Pod) : str :=
  default (lit "unknown") (metadata_name pod).
Definition pod_containers (pod : Pod) : list ContainerStatus :=
  default [] (status_containerStatuses pod).

(** The restart count read from a container status and the key the
    status is tracked under. *)
Definition container_count (container : ContainerStatus) : Z :=
  default 0%Z (c_restartCount container).
Definition container_key (namespace name : str) (container : ContainerStatus) : str :=
  pod_key_of namespace name (default (lit "unknown") (c_name container)).

(** The keys of the container statuses an event carries. *)
Definition event_keys (event_data : EventData) : list str :=
  match event_data with
  | NotADict => []
  | PodData pod =>
      List.map (container_key (pod_namespace pod) (pod_name pod)) (pod_containers pod)
  end.

(** [POST /pods] requests served one after the other. *)
Definition serve (cfg : Config) (env : Env)
    (from_http : FlaskRequest -> exn + CloudEvent) (format_rate : Q -> str)
    (requests : list FlaskRequest) : M unit :=
  for_each requests
    (fun request => handle_pod_event cfg env from_http format_rate request;; mret tt).


(** The request the notifier hands to the transport. *)
Definition ntfy_request (cfg : Config) (title priority : str) (tags : Tags)
    (body : list N) : HttpRequest :=
  {| req_url := NTFY_URL cfg ++ lit "/" ++ NTFY_TOPIC cfg;
     req_data := body;
     req_headers :=
       [(lit "Title", ascii_ignore title);
        (lit "Priority", priority);
        (lit "Content-Type", lit "text/plain; charset=utf-8")]
       ++ (if tags_truthy tags
           then [(lit "Tags", join (lit ",") (List.map ascii_ignore (tags_as_list tags)))]
           else []) |}.

(** The value of a header of a request, if the request has it. *)
Definition header_value (name : str) (r : HttpRequest) : option str :=
  snd <$> List.find (fun h => bool_decide (fst h = name)) (req_headers r).

(** *** Frames *)

(** A computation [m] keeps the relation [R] between the world it starts
    in and the world it ends in. *)
Definition preserves {A} (R : relation World) (m : M A) : Prop :=
  forall w, R w (snd (m w)).

(** Two worlds agree on an aspect [f] of the state. *)
Definition same_on {B} (f : World -> B) : relation World :=
  fun w w' => f w' = f w.

(** No key leaves [restart_history]. *)
Definition keys_kept : relation World :=
  fun w w' => dom (restart_history w) ⊆ dom (restart_history w').

(** Between two worlds, the entries of a key in both dictionaries are
    the same and no key has left [restart_history]. *)
Definition untouched (k : str) : relation World :=
  fun w w' =>
    restart_history w' !! k = restart_history w !! k /\
    last_log_collected w' !! k = last_log_collected w !! k /\
    keys_kept w w'.

(** Relations that bookkeeping (the tick and the logger) does not
    disturb. *)
Class Tolerant (R : relation World) : Prop := {
  tolerant_preorder :: PreOrder R;
  tolerant_tick : forall w, R w (next_tick w);
  tolerant_log : forall r w, R w (add_log r w)
}.

(** ** Scenarios

    The scenario of the specification: one key, a 60-minute window,
    events five minutes apart. [kubectl] is absent and the transport
    accepts everything. *)

Definition scenario_env : Env := {|
  clock := fun i => (Z.of_nat i * 300000000)%Z;
  subprocess_run := fun _ => inl (Exn OtherError (lit "kubectl: not found"));
  requests_post := fun _ => inr {| status_code := 200; text := [] |}
|}.

Definition scenario_key : str := lit "prod/api-7f/app".

(** The world after the events with restart counts 6 (at minute 0) and
    7 (at minute 5). *)
Definition scenario_two : World :=
  snd (record_calls default_config scenario_env scenario_key [6; 7]%Z initial_world).

(** An outside whose clock stands still: every reading is the same
    instant. *)
Definition frozen_env : Env := {|
  clock := fun _ => 0%Z;
  subprocess_run := subprocess_run scenario_env;
  requests_post := requests_post scenario_env
|}.

(** An outside whose clock advances two hours between readings and
    whose [kubectl] finds one line of log. *)
Definition slow_env : Env := {|
  clock := fun i => (Z.of_nat i * 7200000000)%Z;
  subprocess_run := fun _ => inr {| returncode := 0; stdout := lit "boot"; stderr := [] |};
  requests_post := requests_post scenario_env
|}.

(** The title and the tags of the notifier example: the emoji U+1F534
    before [" CRITICAL"], and the tag U+1F6A8 after ["warning"]. *)
Definition critical_title : str := [0x1F534%N] ++ lit " CRITICAL".
Definition warning_siren : Tags := TagsList [lit "warning"; [0x1F6A8%N]].

(** A pod with two containers, one below the default threshold and one
    above it. *)
Definition quiet_container : ContainerStatus :=
  {| c_name := Some (lit "app"); c_restartCount := Some 3%Z;
     c_state_waiting := None; c_lastState_terminated := None |}.

Definition noisy_container : ContainerStatus :=
  {| c_name := Some (lit "sidecar"); c_restartCount := Some 7%Z;
     c_state_waiting := None; c_lastState_terminated := None |}.

Definition two_container_pod : Pod := {|
  metadata_name := Some (lit "api-7f");
  metadata_namespace := Some (lit "prod");
  status_phase := Some (lit "Running");
  status_containerStatuses := Some [quiet_container; noisy_container]
|}.

(** A key of a pod that is gone, and the world in which its one
    observation was recorded at instant 0. *)
Definition old_key : str := lit "prod/old-pod/app".

Definition old_world : World :=
  snd (record_calls default_config slow_env old_key [7]%Z initial_world).

(** Stand-ins for the two library functions the service is given.  The
    decoder rejects an empty body and reads any other as an update of
    the pod [api-7f] of namespace [prod], whose one container [app] has
    as many restarts as the first byte says. *)

Definition example_pod (count : Z) : Pod := {|
  metadata_name := Some (lit "api-7f");
  metadata_namespace := Some (lit "prod");
  status_phase := Some (lit "Running");
  status_containerStatuses :=
    Some [{| c_name := Some (lit "app");
             c_restartCount := Some count;
             c_state_waiting := None;
             c_lastState_terminated := None |}]
|}.

Definition example_from_http (request : FlaskRequest) : exn + CloudEvent :=
  match request_data request with
  | [] => inl (Exn OtherError (lit "Failed to read specversion from both headers and data"))
  | b :: _ => inr {| ce_type := lit "dev.knative.apiserver.resource.update";
                     ce_data := PodData (example_pod (Z.of_N b)) |}
  end.

Definition example_format_rate (rate : Q) : str := lit "0.00".

Definition example_request (body : list N) : FlaskRequest :=
  {| request_headers := [(lit "Content-Type", lit "application/json")];
     request_data := body |}.

(** ** Vocabulary of the further statements *)

(** The container statuses of a list that are at or above the
    threshold. *)
Definition noisy (cfg : Config) (containers : list ContainerStatus)
  : list ContainerStatus :=
  List.filter (fun c => (RESTART_THRESHOLD cfg <=? container_count c)%Z) containers.

(** The dictionaries, the record of [kubectl] invocations and the record
    of posted requests are the same in two worlds. *)
Definition quiet : relation World :=
  fun w w' =>
    restart_history w' = restart_history w /\
    last_log_collected w' = last_log_collected w /\
    kubectl_calls w' = kubectl_calls w /\
    posted w' = posted w.

(** A rendering of instants for the examples. *)
Definition example_strftime (t : datetime) : str := lit "2024-01-01 00:00:00".

(** A request is the alert of a container status of [containers] that
    is at or above the threshold: its title is the alert title with the
    cluster name, its priority the severity of the status' restart count,
    its tags [warning] and [rotating_light]. *)
Definition alert_of (cfg : Config) (containers : list ContainerStatus)
    (r : HttpRequest) : Prop :=
  exists container body,
    container ∈ containers /\
    (RESTART_THRESHOLD cfg <= container_count container)%Z /\
    r = ntfy_request cfg (lit "ALERT: Pod Restarts - " ++ CLUSTER_NAME cfg)
          (severity (container_count container))
          (TagsList [lit "warning"; lit "rotating_light"]) body.

(** An outside in which [kubectl] is absent and the transport is down. *)
Definition hostile_env : Env := {|
  clock := clock scenario_env;
  subprocess_run := subprocess_run scenario_env;
  requests_post := fun _ => inl (Exn OtherError (lit "Connection refused"))
|}.

(** The default configuration with the window set to 0 minutes. *)
Definition zero_window_config : Config := {|
  NTFY_URL := NTFY_URL default_config;
  NTFY_TOPIC := NTFY_TOPIC default_config;
  CLUSTER_NAME := CLUSTER_NAME default_config;
  RESTART_THRESHOLD := RESTART_THRESHOLD default_config;
  TIME_WINDOW_MINUTES := 0
|}.

(** An outside whose clock advances one minute between readings, whose
    [kubectl] finds one line of log and whose transport accepts. *)
Definition brisk_env : Env := {|
  clock := fun i => (Z.of_nat i * 60000000)%Z;
  subprocess_run := subprocess_run slow_env;
  requests_post := requests_post scenario_env
|}.

(** *** The log fetch *)

(** The guard of the log block holds: the key has no recorded time, or
    the clock reads more than 300 seconds past it. *)
Definition fetch_due (env : Env) (pod_key : str) (w : World) : Prop :=
  match last_log_collected w !! pod_key with
  | None => True
  | Some t => (300 * 1000000 < clock env (tick w) - t)%Z
  end.

(** The question of the outside that [kubectl] answers when the block
    fetches: the next one for a key with no recorded time, the one after
    the reading of the clock otherwise. *)
Definition fetch_tick (pod_key : str) (w : World) : nat :=
  match last_log_collected w !! pod_key with
  | None => tick w
  | Some _ => S (tick w)
  end.

(** [kubectl] answers question [i] by exiting with code 0 and printing
    nothing. *)
Definition empty_answer (env : Env) (i : nat) : Prop :=
  exists result,
    subprocess_run env i = inr result /\ returncode result = 0%Z /\ stdout result = [].

(** What one container status at or above the threshold posts: nothing,
    or its alert. *)
Definition alert_or_nothing (cfg : Config) (container : ContainerStatus)
    (part : list HttpRequest) : Prop :=
  part = [] \/
  exists body,
    part = [ntfy_request cfg (lit "ALERT: Pod Restarts - " ++ CLUSTER_NAME cfg)
              (severity (container_count container))
              (TagsList [lit "warning"; lit "rotating_light"]) body].

(** The [kubectl] invocations one container status at or above the
    threshold makes: none, or one for its logs. *)
Definition fetch_or_nothing (namespace name : str) (container : ContainerStatus)
    (part : list (str * str * str * Z)) : Prop :=
  part = [] \/
  part = [(namespace, name, default (lit "unknown") (c_name container), 50%Z)].

(** An outside whose clock stands still and whose [kubectl] succeeds
    without printing anything. *)
Definition silent_env : Env := {|
  clock := fun _ => 0%Z;
  subprocess_run := fun _ => inr {| returncode := 0; stdout := []; stderr := [] |};
  requests_post := requests_post scenario_env
|}.
(** ** Running computations *)

Ltac run :=
  unfold mbind, M_bind, mret, M_ret, raise, gets, modify, logger_info,
    logger_error; simpl.

(** The same without touching anything but the plumbing. *)
Ltac step :=
  cbv beta iota zeta
    delta [mbind M_bind mret M_ret raise gets modify logger_info logger_error
           try_except].

Lemma getitem_first {A} (l : list A) (x : A) (w : World) :
  head l = Some x -> getitem l 0 w = (Ok x, w).
Proof.
  destruct l as [|y l]; simpl; [discriminate|].
  intros [= ->]. reflexivity.
Qed.

Lemma getitem_last {A} (l : list A) (x : A) (w : World) :
  last l = Some x -> getitem l (-1) w = (Ok x, w).
Proof.
  intros Hl. unfold getitem.
  assert (Hlen : (0 < length l)%nat) by (destruct l; simpl; [discriminate | lia]).
  replace (if (-1 <? 0)%Z then (Z.of_nat (length l) + -1)%Z else (-1)%Z)
    with (Z.of_nat (length l) + -1)%Z by reflexivity.
  destruct (Z.ltb_spec (Z.of_nat (length l) + -1) 0); [lia|].
  replace (Z.to_nat (Z.of_nat (length l) + -1)) with (Nat.pred (length l)) by lia.
  rewrite last_lookup in Hl. rewrite Hl. reflexivity.
Qed.

Lemma truediv_nonzero (a b : Q) (w : World) :
  ~ (b == 0)%Q -> truediv a b w = (Ok (a / b)%Q, w).
Proof.
  intros Hb. unfold truediv.
  destruct (Qeq_bool b 0) eqn:E; [|reflexivity].
  apply Qeq_bool_eq in E. contradiction.
Qed.

Section Analysis.

Variable cfg : Config.
Variable env : Env.

(** The analysis never raises: it ticks the clock once, replaces the
    key's list by the retained one and returns its rate. *)
Lemma analyze_restart_pattern_run (pod_key : str) (count : Z) (w : World) :
  analyze_restart_pattern cfg env pod_key count w =
    let history :=
      retained cfg (clock env (tick w)) count (restart_history w !!! pod_key) in
    (Ok (rate_of history),
     set_restart_history (<[pod_key := history]> (restart_history w)) (next_tick w)).
Proof.
  unfold analyze_restart_pattern, datetime_now. run.
  rewrite !lookup_total_insert_eq, insert_insert_eq.
  fold (retained cfg (clock env (tick w)) count (restart_history w !!! pod_key)).
  set (history := retained _ _ _ _).
  unfold rate_of, elapsed_minutes.
  destruct (decide (1 < length history)%nat) as [Hlen|Hlen]; [|reflexivity].
  destruct (last history) as [newest|] eqn:Hlast;
    [|destruct history; [simpl in Hlen; lia | rewrite last_cons in Hlast;
       destruct (last history); discriminate]].
  destruct (head history) as [oldest|] eqn:Hhead;
    [|destruct history; [simpl in Hlen; lia | discriminate]].
  rewrite (getitem_last _ _ _ Hlast). rewrite (getitem_first _ _ _ Hhead).
  destruct (Qlt_le_dec 0 _) as [Hpos|Hle]; [|reflexivity].
  rewrite truediv_nonzero; [reflexivity|].
  intros Hz. rewrite Hz in Hpos. exact (Qlt_irrefl 0 Hpos).
Qed.

End Analysis.

(** ** The restart rate *)

Section Rate.

Variable cfg : Config.
Variable env : Env.

Lemma analyze_restart_pattern_history (pod_key : str) (count : Z) (w : World) :
  restart_history (snd (analyze_restart_pattern cfg env pod_key count w)) !!! pod_key
  = retained cfg (clock env (tick w)) count (restart_history w !!! pod_key).
Proof.
  rewrite analyze_restart_pattern_run. simpl. apply lookup_total_insert_eq.
Qed.

Lemma analyze_restart_pattern_result (pod_key : str) (count : Z) (w : World) :
  fst (analyze_restart_pattern cfg env pod_key count w)
  = Ok (rate_of (restart_history
                   (snd (analyze_restart_pattern cfg env pod_key count w)) !!! pod_key)).
Proof.
  rewrite analyze_restart_pattern_history.
  rewrite analyze_restart_pattern_run. reflexivity.
Qed.

(** C1, as the code has it: when the pruned sequence of the key has
    n >= 2 observations and its first and last are elapsed_minutes > 0
    apart, the analysis returns n / elapsed_minutes: every retained
    observation counts, the first one included. *)
Theorem analyze_restart_pattern_rate (pod_key : str) (count : Z) (w : World) :
  let out := analyze_restart_pattern cfg env pod_key count w in
  let history := restart_history (snd out) !!! pod_key in
  (2 <= length history)%nat ->
  (0 < elapsed_minutes history)%Q ->
  fst out = Ok (inject_Z (Z.of_nat (length history)) / elapsed_minutes history)%Q.
Proof.
  cbn zeta. intros Hn Hpos.
  rewrite analyze_restart_pattern_result. unfold rate_of.
  destruct (decide _) as [_|]; [|lia].
  destruct (Qlt_le_dec _ _) as [_|Hle]; [reflexivity|].
  exfalso. exact (Qlt_not_le _ _ Hpos Hle).
Qed.

(** C4: the analysis always returns a number, so no division by zero
    is ever attempted; the number is 0 when at most one observation is
    retained, and 0 when the first and the last retained observation
    bear the same timestamp (elapsed minutes equal to 0). *)
Theorem analyze_restart_pattern_zero (pod_key : str) (count : Z) (w : World) :
  let out := analyze_restart_pattern cfg env pod_key count w in
  let history := restart_history (snd out) !!! pod_key in
  (exists rate, fst out = Ok rate) /\
  ((length history <= 1)%nat -> fst out = Ok 0%Q) /\
  ((elapsed_minutes history == 0)%Q -> fst out = Ok 0%Q) /\
  (forall newest oldest,
      last history = Some newest -> head history = Some oldest ->
      timestamp newest = timestamp oldest ->
      (elapsed_minutes history == 0)%Q /\ fst out = Ok 0%Q).
Proof.
  cbn zeta. rewrite analyze_restart_pattern_result.
  set (history := restart_history _ !!! pod_key).
  assert (Hzero : (elapsed_minutes history == 0)%Q -> Ok (rate_of history) = Ok 0%Q).
  { intros Hz. unfold rate_of.
    destruct (decide _); [|reflexivity].
    destruct (Qlt_le_dec _ _) as [Hpos|]; [|reflexivity].
    rewrite Hz in Hpos. destruct (Qlt_irrefl 0 Hpos). }
  split; [eauto|]. split; [|split; [exact Hzero|]].
  - intros Hlen. unfold rate_of. destruct (decide _); [lia|reflexivity].
  - intros newest oldest Hlast Hhead Heq.
    assert (Hz : (elapsed_minutes history == 0)%Q).
    { unfold elapsed_minutes. rewrite Hlast, Hhead, Heq, Z.sub_diag. reflexivity. }
    split; [exact Hz | exact (Hzero Hz)].
Qed.

End Rate.

(** C1, as stated, fails on the scenario of the specification: after the
    third event three observations are retained, ten minutes apart end
    to end, and the rate returned is 3/10, not (3 - 1)/10 = 2/10. *)
Lemma analyze_restart_pattern_scenario_rate :
  let out :=
    analyze_restart_pattern default_config scenario_env scenario_key 8 scenario_two in
  let history := restart_history (snd out) !!! scenario_key in
  length history = 3%nat /\
  (elapsed_minutes history == 10)%Q /\
  exists rate, fst out = Ok rate /\ (rate == 3 # 10)%Q /\
    ~ (rate == 2 # 10)%Q /\
    ~ (rate == inject_Z (Z.of_nat (length history) - 1) / elapsed_minutes history)%Q.
Proof.
  cbn zeta. split; [vm_compute; reflexivity|]. split; [vm_compute; reflexivity|].
  eexists. split; [vm_compute; reflexivity|].
  split; [vm_compute; reflexivity|].
  split; vm_compute; discriminate.
Qed.

(** The rate theorem on the scenario: three observations over ten
    minutes, rate 3/10. *)
Lemma analyze_restart_pattern_rate_witness :
  let out :=
    analyze_restart_pattern default_config scenario_env scenario_key 8 scenario_two in
  let history := restart_history (snd out) !!! scenario_key in
  length history = 3%nat /\ (elapsed_minutes history == 10)%Q /\
  exists rate, fst out = Ok rate /\ (rate == 3 # 10)%Q.
Proof.
  cbn zeta. split; [vm_compute; reflexivity|]. split; [vm_compute; reflexivity|].
  eexists. split.
  - apply (analyze_restart_pattern_rate default_config scenario_env scenario_key 8
             scenario_two).
    + vm_compute. lia.
    + vm_compute. reflexivity.
  - vm_compute. reflexivity.
Defined.

(** The zero theorem at work: two observations read at the same instant,
    and a first observation alone. *)
Lemma analyze_restart_pattern_zero_witness :
  let w1 := snd (record_calls default_config frozen_env scenario_key [6]%Z initial_world) in
  let out := analyze_restart_pattern default_config frozen_env scenario_key 7 w1 in
  length (restart_history (snd out) !!! scenario_key) = 2%nat /\
  fst out = Ok 0%Q /\
  fst (analyze_restart_pattern default_config scenario_env scenario_key 6 initial_world)
    = Ok 0%Q.
Proof.
  cbn zeta. split; [vm_compute; reflexivity|]. split.
  - destruct (analyze_restart_pattern_zero default_config frozen_env scenario_key 7
                (snd (record_calls default_config frozen_env scenario_key [6]%Z
                        initial_world)))
      as (_ & _ & _ & Hsame).
    apply (Hsame {| timestamp := 0%Z; restart_count := 7%Z |}
                 {| timestamp := 0%Z; restart_count := 6%Z |});
      vm_compute; reflexivity.
  - destruct (analyze_restart_pattern_zero default_config scenario_env scenario_key 6
                initial_world) as (_ & Hshort & _).
    apply Hshort. vm_compute. lia.
Defined.

(** ** Severity *)

Lemma severity_cases (count : Z) :
  (count <= 10)%Z /\ severity count = lit "default"
  \/ (11 <= count <= 20)%Z /\ severity count = lit "high"
  \/ (21 <= count)%Z /\ severity count = lit "max".
Proof.
  unfold severity.
  destruct (Z.ltb_spec 20 count); [right; right; split; [lia|reflexivity]|].
  destruct (Z.ltb_spec 10 count); [right; left; split; [lia|reflexivity]|].
  left. split; [lia|reflexivity].
Qed.

(** C3: the severity grows with the restart count along the scale
    default < high < max, and its boundaries are the strict comparisons
    of the code: up to and including 10 it is "default" (so at 6 and at
    exactly 10), from 11 up to and including 20 it is "high" (so at 11
    and at exactly 20), above 20 it is "max" (so at 21). *)
Theorem severity_monotone_with_strict_boundaries (count count' : Z) :
  ((count <= count')%Z ->
   priority_level (severity count) <= priority_level (severity count')) /\
  ((count <= 10)%Z -> severity count = lit "default") /\
  ((11 <= count <= 20)%Z -> severity count = lit "high") /\
  ((21 <= count)%Z -> severity count = lit "max") /\
  severity 6 = lit "default" /\ severity 10 = lit "default" /\
  severity 11 = lit "high" /\ severity 20 = lit "high" /\
  severity 21 = lit "max".
Proof.
  repeat split; try reflexivity.
  - intros Hle.
    destruct (severity_cases count) as [[H ->]|[[H ->]|[H ->]]],
             (severity_cases count') as [[H' ->]|[[H' ->]|[H' ->]]];
      try lia; vm_compute; lia.
  - intros H. destruct (severity_cases count) as [[_ ->]|[[? _]|[? _]]];
      [reflexivity | lia | lia].
  - intros H. destruct (severity_cases count) as [[? _]|[[_ ->]|[? _]]];
      [lia | reflexivity | lia].
  - intros H. destruct (severity_cases count) as [[? _]|[[? _]|[_ ->]]];
      [lia | lia | reflexivity].
Qed.

(** The severity theorem across the boundary between 10 and 11. *)
Lemma severity_monotone_with_strict_boundaries_witness :
  priority_level (severity 10) <= priority_level (severity 11) /\
  priority_level (severity 20) < priority_level (severity 21) /\
  severity 10 = lit "default" /\ severity 11 = lit "high".
Proof.
  destruct (severity_monotone_with_strict_boundaries 10 11)
    as (Hmono & Hlow & _ & _ & _ & _ & H11 & _).
  split; [apply Hmono; lia|].
  split; [vm_compute; lia|].
  split; [apply Hlow; lia | exact H11].
Defined.

(** ** The window and the order of a history *)

Lemma ascending_filter (keep : Observation -> bool) (history : list Observation) :
  ascending history -> ascending (List.filter keep history).
Proof.
  unfold ascending. induction 1 as [|a l Hl IH Ha]; simpl; [constructor|].
  destruct (keep a); [|exact IH].
  constructor; [exact IH|].
  apply List.Forall_forall. intros b Hb. apply List.filter_In in Hb as [Hb _].
  exact (proj1 (List.Forall_forall _ _) Ha b Hb).
Qed.

Section Window.

Variable cfg : Config.

Lemma retained_ascending (now : datetime) (count : Z) (old : list Observation) :
  ascending old ->
  Forall (fun r => (timestamp r <= now)%Z) old ->
  ascending (retained cfg now count old).
Proof.
  intros Hsorted Hbound. apply ascending_filter.
  apply StronglySorted_app_2; [|exact Hsorted|repeat constructor].
  intros a b Ha Hb. apply list_elem_of_singleton in Hb as ->. simpl.
  exact (proj1 (Forall_forall _ _) Hbound a Ha).
Qed.

Lemma retained_recent (now : datetime) (count : Z) (old : list Observation) :
  Forall (fun r => (now - timedelta_minutes (TIME_WINDOW_MINUTES cfg) < timestamp r)%Z)
    (retained cfg now count old).
Proof.
  apply List.Forall_forall. intros r Hr.
  apply List.filter_In in Hr as [_ Hr]. lia.
Qed.

Lemma retained_bounded (now : datetime) (count : Z) (old : list Observation) :
  Forall (fun r => (timestamp r <= now)%Z) old ->
  Forall (fun r => (timestamp r <= now)%Z) (retained cfg now count old).
Proof.
  intros Hbound. apply List.Forall_forall. intros r Hr.
  apply List.filter_In in Hr as [Hr _].
  apply List.in_app_or in Hr as [Hr|[<-|[]]]; [|simpl; lia].
  exact (proj1 (List.Forall_forall _ _) Hbound r Hr).
Qed.

Variable env : Env.

Lemma record_calls_cons (pod_key : str) (count : Z) (counts : list Z) (w : World) :
  record_calls cfg env pod_key (count :: counts) w
  = record_calls cfg env pod_key counts
      (snd (analyze_restart_pattern cfg env pod_key count w)).
Proof.
  unfold record_calls. simpl. run.
  rewrite analyze_restart_pattern_run. reflexivity.
Qed.

Lemma analyze_restart_pattern_tick (pod_key : str) (count : Z) (w : World) :
  tick (snd (analyze_restart_pattern cfg env pod_key count w)) = S (tick w).
Proof. rewrite analyze_restart_pattern_run. reflexivity. Qed.

(** C2: along any sequence of analyses of one key whose clock readings
    are strictly increasing, once the last of them has pruned, every
    stored observation of the key is newer than the reading of that
    analysis minus TIME_WINDOW_MINUTES, and the stored sequence is in
    ascending order of timestamp.  The sequence is any non-empty one,
    so this holds after each analysis. *)
Theorem record_calls_window_and_order (pod_key : str) (counts : list Z)
    (count : Z) (w : World) :
  (forall i j, (tick w <= i < j)%nat -> (clock env i < clock env j)%Z) ->
  ascending (restart_history w !!! pod_key) ->
  Forall (fun r => (timestamp r < clock env (tick w))%Z)
    (restart_history w !!! pod_key) ->
  let out := record_calls cfg env pod_key (counts ++ [count]) w in
  let now := clock env (tick w + length counts) in
  fst out = Ok tt /\
  Forall (fun r => (now - timedelta_minutes (TIME_WINDOW_MINUTES cfg) < timestamp r)%Z)
    (restart_history (snd out) !!! pod_key) /\
  ascending (restart_history (snd out) !!! pod_key).
Proof.
  cbn zeta. revert w.
  induction counts as [|c counts IH]; intros w Hclock Hsorted Hold.
  - simpl app. rewrite record_calls_cons. unfold record_calls. simpl for_each. run.
    rewrite Nat.add_0_r, analyze_restart_pattern_history.
    assert (Hle : Forall (fun r => (timestamp r <= clock env (tick w))%Z)
                    (restart_history w !!! pod_key))
      by (eapply Forall_impl; [exact Hold | simpl; intros; lia]).
    split; [reflexivity|]. split; [apply retained_recent|].
    apply retained_ascending; assumption.
  - simpl app. rewrite record_calls_cons.
    set (w1 := snd (analyze_restart_pattern cfg env pod_key c w)).
    assert (Htick : tick w1 = S (tick w)) by apply analyze_restart_pattern_tick.
    assert (Hle : Forall (fun r => (timestamp r <= clock env (tick w))%Z)
                    (restart_history w !!! pod_key))
      by (eapply Forall_impl; [exact Hold | simpl; intros; lia]).
    replace (tick w + length (c :: counts))%nat with (tick w1 + length counts)%nat
      by (rewrite Htick; simpl; lia).
    apply IH.
    + intros i j Hij. apply Hclock. lia.
    + unfold w1. rewrite analyze_restart_pattern_history.
      apply retained_ascending; assumption.
    + unfold w1 at 2. rewrite analyze_restart_pattern_history.
      eapply Forall_impl; [apply retained_bounded; exact Hle|].
      simpl. intros r Hr. rewrite Htick.
      specialize (Hclock (tick w) (S (tick w))). lia.
Qed.

End Window.

(** The window theorem on the three events of the scenario, from a
    fresh process. *)
Lemma record_calls_window_and_order_witness :
  let out := record_calls default_config scenario_env scenario_key [6; 7; 8]%Z
               initial_world in
  fst out = Ok tt /\
  Forall (fun r => (600000000 - 3600000000 < timestamp r)%Z)
    (restart_history (snd out) !!! scenario_key) /\
  ascending (restart_history (snd out) !!! scenario_key).
Proof.
  apply (record_calls_window_and_order default_config scenario_env scenario_key
           [6; 7]%Z 8%Z initial_world).
  - intros i j Hij. simpl. lia.
  - constructor.
  - constructor.
Defined.

(** The other scenario of the specification: with a 5-minute window,
    events at minute 0 and at minute 10 leave one observation, the
    second, and the rate is 0. *)
Example short_window_scenario :
  let cfg := {| NTFY_URL := NTFY_URL default_config;
                NTFY_TOPIC := NTFY_TOPIC default_config;
                CLUSTER_NAME := CLUSTER_NAME default_config;
                RESTART_THRESHOLD := 5;
                TIME_WINDOW_MINUTES := 5 |} in
  let env := {| clock := fun i => (Z.of_nat i * 600000000)%Z;
                subprocess_run := subprocess_run scenario_env;
                requests_post := requests_post scenario_env |} in
  let w1 := snd (analyze_restart_pattern cfg env scenario_key 6 initial_world) in
  let out := analyze_restart_pattern cfg env scenario_key 7 w1 in
  restart_history (snd out) !! scenario_key
  = Some [{| timestamp := 600000000%Z; restart_count := 7%Z |}] /\
  fst out = Ok 0%Q.
Proof. vm_compute. split; reflexivity. Qed.

(** ** What a computation leaves alone *)

Section Frames.

Context (R : relation World) `{!Tolerant R}.

(** What a relation has to tolerate besides, for a computation that
    posts or that runs [kubectl]. *)
Hypothesis tolerant_posted : forall r w, R w (add_posted r w).
Hypothesis tolerant_kubectl : forall c w, R w (add_kubectl_call c w).

Lemma preserves_mret {A} (a : A) : preserves R (mret a).
Proof. intros w. simpl. reflexivity. Qed.

Lemma preserves_raise {A} (e : exn) : preserves R (@raise A e).
Proof. intros w. simpl. reflexivity. Qed.

Lemma preserves_gets {A} (f : World -> A) : preserves R (gets f).
Proof. intros w. simpl. reflexivity. Qed.

Lemma preserves_bind {A B} (m : M A) (f : A -> M B) :
  preserves R m -> (forall a, preserves R (f a)) -> preserves R (m ≫= f).
Proof.
  intros Hm Hf w. specialize (Hm w). unfold mbind, M_bind.
  destruct (m w) as [[a|e] w1]; simpl in *; [|exact Hm].
  etransitivity; [exact Hm | apply Hf].
Qed.

Lemma preserves_raise_bind {A B} (e : exn) (f : A -> M B) :
  preserves R (raise e ≫= f).
Proof. intros w. simpl. reflexivity. Qed.

Lemma preserves_mret_bind {A B} (a : A) (f : A -> M B) :
  preserves R (f a) -> preserves R (mret a ≫= f).
Proof. intros Hf w. exact (Hf w). Qed.

Lemma preserves_try_except {A} (body : M A) (handler : exn -> M A) :
  preserves R body -> (forall e, preserves R (handler e)) ->
  preserves R (try_except body handler).
Proof.
  intros Hb Hh w. specialize (Hb w). unfold try_except.
  destruct (body w) as [[a|e] w1]; simpl in *; [exact Hb|].
  etransitivity; [exact Hb | apply Hh].
Qed.

Lemma preserves_modify (f : World -> World) :
  (forall w, R w (f w)) -> preserves R (modify f).
Proof. intros Hf w. apply Hf. Qed.

Lemma preserves_logger_info (msg : str) : preserves R (logger_info msg).
Proof. apply preserves_modify, tolerant_log. Qed.

Lemma preserves_logger_error (msg : str) : preserves R (logger_error msg).
Proof. apply preserves_modify, tolerant_log. Qed.

Lemma preserves_encode (s : str) : preserves R (encode s).
Proof.
  unfold encode. destruct (encode_utf8 s);
    [apply preserves_mret | apply preserves_raise].
Qed.

Lemma preserves_for_each {A} (l : list A) (body : A -> M unit) :
  (forall x, x ∈ l -> preserves R (body x)) -> preserves R (for_each l body).
Proof.
  induction l as [|x l IH]; intros Hbody; simpl.
  - apply preserves_mret.
  - apply preserves_bind; [apply Hbody; left|].
    intros _. apply IH. intros y Hy. apply Hbody. right. exact Hy.
Qed.

Variable cfg : Config.
Variable env : Env.

Lemma preserves_datetime_now : preserves R (datetime_now env).
Proof. intros w. apply tolerant_tick. Qed.

Lemma preserves_post (r : HttpRequest) : preserves R (post env r).
Proof.
  intros w. unfold post.
  assert (R w (add_posted r (next_tick w)))
    by (etransitivity; [apply tolerant_tick | apply tolerant_posted]).
  destruct (requests_post env (tick w)); assumption.
Qed.

Lemma preserves_send_ntfy_notification (title message priority : str) (tags : Tags) :
  preserves R (send_ntfy_notification cfg env title message priority tags).
Proof.
  unfold send_ntfy_notification.
  apply preserves_try_except.
  - apply preserves_bind; [apply preserves_encode|]. intros bs.
    apply preserves_bind; [apply preserves_post|]. intros resp.
    destruct (status_code resp =? 200)%Z;
      (apply preserves_bind;
       [first [apply preserves_logger_info | apply preserves_logger_error]
       | intros _; apply preserves_mret]).
  - intros e. apply preserves_bind; [apply preserves_logger_error|].
    intros _. apply preserves_mret.
Qed.

Lemma preserves_get_pod_logs (namespace pod_name container_name : str) (lines : Z) :
  preserves R (get_pod_logs env namespace pod_name container_name lines).
Proof.
  unfold get_pod_logs. apply preserves_try_except.
  - apply preserves_bind.
    + intros w. unfold kubectl_logs.
      assert (R w (add_kubectl_call (namespace, pod_name, container_name, lines)
                     (next_tick w)))
        by (etransitivity; [apply tolerant_tick | apply tolerant_kubectl]).
      destruct (subprocess_run env (tick w)); assumption.
    + intros result. destruct (returncode result =? 0)%Z; apply preserves_mret.
  - intros e. apply preserves_bind; [apply preserves_logger_error|].
    intros _. apply preserves_mret.
Qed.

Lemma preserves_collect_log_snippet (namespace name container_name pod_key : str) :
  (forall t w,
      R w (set_last_log_collected (<[pod_key := t]> (last_log_collected w)) w)) ->
  preserves R (collect_log_snippet env namespace name container_name pod_key).
Proof.
  intros Hset. unfold collect_log_snippet.
  apply preserves_bind; [apply preserves_gets|]. intros last_collected.
  apply preserves_bind.
  { destruct last_collected; [|apply preserves_mret].
    apply preserves_bind; [apply preserves_datetime_now|].
    intros now. apply preserves_mret. }
  intros [|]; [|apply preserves_mret].
  apply preserves_bind; [apply preserves_get_pod_logs|]. intros logs.
  destruct (bool_decide (logs = [])); [apply preserves_mret|].
  apply preserves_bind; [apply preserves_datetime_now|]. intros now.
  apply preserves_bind; [apply preserves_modify; intros w; apply Hset|].
  intros _. apply preserves_mret.
Qed.

Lemma preserves_analyze_restart_pattern (pod_key : str) (count : Z) :
  (forall h w, R w (set_restart_history (<[pod_key := h]> (restart_history w)) w)) ->
  preserves R (analyze_restart_pattern cfg env pod_key count).
Proof.
  intros Hset w. rewrite analyze_restart_pattern_run. simpl.
  etransitivity; [apply tolerant_tick|].
  apply (Hset _ (next_tick w)).
Qed.

Variable format_rate : Q -> str.

Lemma preserves_process_container (namespace name : str)
    (container : ContainerStatus) :
  (forall h w,
      R w (set_restart_history
             (<[container_key namespace name container := h]> (restart_history w)) w)) ->
  (forall t w,
      R w (set_last_log_collected
             (<[container_key namespace name container := t]> (last_log_collected w)) w)) ->
  preserves R (process_container cfg env format_rate namespace name container).
Proof.
  intros Hhist Hlast. unfold process_container.
  destruct (_ <=? _)%Z; [|apply preserves_mret].
  apply preserves_bind; [apply preserves_analyze_restart_pattern, Hhist|].
  intros rate.
  apply preserves_bind; [apply preserves_collect_log_snippet, Hlast|].
  intros snippet.
  apply preserves_bind; [apply preserves_send_ntfy_notification|].
  intros _. apply preserves_mret.
Qed.

Lemma preserves_process_container_below (namespace name : str)
    (container : ContainerStatus) :
  (default 0 (c_restartCount container) < RESTART_THRESHOLD cfg)%Z ->
  preserves R (process_container cfg env format_rate namespace name container).
Proof.
  intros Hlow. unfold process_container.
  destruct (Z.leb_spec (RESTART_THRESHOLD cfg) (default 0%Z (c_restartCount container)));
    [lia | apply preserves_mret].
Qed.

End Frames.

Lemma same_on_preorder {B} (f : World -> B) : PreOrder (same_on f).
Proof.
  split; [intros w; reflexivity|].
  intros w1 w2 w3 H12 H23. unfold same_on in *. congruence.
Qed.

#[local] Instance same_on_restart_history_tolerant : Tolerant (same_on restart_history).
Proof. split; [apply same_on_preorder | reflexivity..]. Qed.

#[local] Instance same_on_last_log_collected_tolerant :
  Tolerant (same_on last_log_collected).
Proof. split; [apply same_on_preorder | reflexivity..]. Qed.

#[local] Instance same_on_kubectl_calls_tolerant : Tolerant (same_on kubectl_calls).
Proof. split; [apply same_on_preorder | reflexivity..]. Qed.

Lemma untouched_refl (k : str) (w : World) : untouched k w w.
Proof. unfold untouched, keys_kept. split; [|split]; reflexivity. Qed.

#[local] Instance untouched_tolerant (k : str) : Tolerant (untouched k).
Proof.
  assert (Hsame : forall w w' : World,
             restart_history w' = restart_history w ->
             last_log_collected w' = last_log_collected w -> untouched k w w').
  { intros w w' Hh Hl. unfold untouched, keys_kept. rewrite Hh, Hl.
    split; [|split]; reflexivity. }
  split; [split|..].
  - intros w. apply untouched_refl.
  - intros w1 w2 w3 (Hh12 & Hl12 & Hk12) (Hh23 & Hl23 & Hk23).
    unfold untouched, keys_kept in *.
    split; [congruence|]. split; [congruence|].
    transitivity (dom (restart_history w2)); assumption.
  - intros w. apply Hsame; reflexivity.
  - intros r w. apply Hsame; reflexivity.
Qed.

Lemma untouched_add_posted (k : str) (r : HttpRequest) (w : World) :
  untouched k w (add_posted r w).
Proof. unfold untouched, keys_kept. simpl. split; [|split]; reflexivity. Qed.

Lemma untouched_add_kubectl_call (k : str) (c : str * str * str * Z) (w : World) :
  untouched k w (add_kubectl_call c w).
Proof. unfold untouched, keys_kept. simpl. split; [|split]; reflexivity. Qed.

Lemma untouched_set_restart_history (k key : str) (h : list Observation) (w : World) :
  key <> k ->
  untouched k w (set_restart_history (<[key := h]> (restart_history w)) w).
Proof.
  intros Hne. unfold untouched, keys_kept. simpl.
  split; [apply lookup_insert_ne; exact Hne|]. split; [reflexivity|].
  rewrite dom_insert_L. set_solver.
Qed.

Lemma untouched_set_last_log_collected (k key : str) (t : datetime) (w : World) :
  key <> k ->
  untouched k w (set_last_log_collected (<[key := t]> (last_log_collected w)) w).
Proof.
  intros Hne. unfold untouched, keys_kept. simpl.
  split; [reflexivity|]. split; [apply lookup_insert_ne; exact Hne | reflexivity].
Qed.

(** ** The threshold and the other keys *)

Section Events.

Variable cfg : Config.
Variable env : Env.
Variable from_http : FlaskRequest -> exn + CloudEvent.
Variable format_rate : Q -> str.

(** A container status leaves alone every key but its own, and its own
    too when its count is below the threshold. *)
Lemma process_container_untouched (k namespace name : str)
    (container : ContainerStatus) :
  container_key namespace name container <> k \/
  (container_count container < RESTART_THRESHOLD cfg)%Z ->
  preserves (untouched k)
    (process_container cfg env format_rate namespace name container).
Proof.
  intros [Hne|Hlow].
  - apply preserves_process_container;
      [apply _|apply untouched_add_posted|apply untouched_add_kubectl_call|..]; intros.
    + apply untouched_set_restart_history, Hne.
    + apply untouched_set_last_log_collected, Hne.
  - apply preserves_process_container_below; [apply _ | exact Hlow].
Qed.

Lemma process_pod_event_not_a_dict (R : relation World) `{!Tolerant R} :
  preserves R (process_pod_event cfg env format_rate NotADict).
Proof. intros w. simpl. apply tolerant_log. Qed.

Lemma process_pod_event_untouched (k : str) (pod : Pod) :
  (forall container,
      container ∈ pod_containers pod ->
      container_key (pod_namespace pod) (pod_name pod) container <> k \/
      (container_count container < RESTART_THRESHOLD cfg)%Z) ->
  preserves (untouched k) (process_pod_event cfg env format_rate (PodData pod)).
Proof.
  intros Hkeys. unfold process_pod_event.
  apply preserves_try_except; [apply _| |].
  - simpl event_dict. apply preserves_mret_bind.
    apply preserves_bind; [apply _|apply preserves_logger_info, _|].
    intros _. apply preserves_bind; [apply _| |intros _; apply preserves_mret, _].
    apply preserves_for_each; [apply _|]. intros container Hin.
    apply process_container_untouched, Hkeys, Hin.
  - intros e. apply preserves_bind; [apply _|apply preserves_logger_error, _|].
    intros _. apply preserves_mret, _.
Qed.

Lemma handle_pod_event_untouched (k : str) (request : FlaskRequest) :
  (forall event pod container,
      from_http request = inr event -> ce_data event = PodData pod ->
      container ∈ pod_containers pod ->
      container_key (pod_namespace pod) (pod_name pod) container <> k \/
      (container_count container < RESTART_THRESHOLD cfg)%Z) ->
  preserves (untouched k) (handle_pod_event cfg env from_http format_rate request).
Proof.
  intros Hkeys. unfold handle_pod_event.
  apply preserves_try_except; [apply _| |].
  - destruct (from_http request) as [e|event] eqn:Hdecode.
    + apply preserves_raise_bind, _.
    + apply preserves_mret_bind.
      apply preserves_bind; [apply _|apply preserves_logger_info, _|]. intros _.
      apply preserves_bind; [apply _| |intros [|]; apply preserves_mret, _].
      destruct (ce_data event) as [|pod] eqn:Hdata.
      * apply process_pod_event_not_a_dict, _.
      * apply process_pod_event_untouched. intros container Hin.
        exact (Hkeys event pod container eq_refl Hdata Hin).
  - intros e. apply preserves_bind; [apply _|apply preserves_logger_error, _|].
    intros _. apply preserves_mret, _.
Qed.

Lemma serve_untouched (k : str) (requests : list FlaskRequest) :
  (forall request event,
      request ∈ requests -> from_http request = inr event ->
      k ∉ event_keys (ce_data event)) ->
  preserves (untouched k) (serve cfg env from_http format_rate requests).
Proof.
  intros Hkeys. unfold serve. apply preserves_for_each; [apply _|].
  intros request Hin.
  apply preserves_bind; [apply _| |intros ?; apply preserves_mret, _].
  apply handle_pod_event_untouched. intros event pod container Hdecode Hdata Hc.
  left. intros Hkey. apply (Hkeys request event Hin Hdecode).
  rewrite Hdata. simpl. apply list_elem_of_In, List.in_map_iff.
  exists container. split; [exact Hkey | apply list_elem_of_In, Hc].
Qed.

(** After a container status at or above the threshold, its key holds
    the retained list. *)
Lemma process_container_records (namespace name : str)
    (container : ContainerStatus) (w : World) :
  (RESTART_THRESHOLD cfg <= container_count container)%Z ->
  restart_history
    (snd (process_container cfg env format_rate namespace name container w))
    !! container_key namespace name container
  = Some (retained cfg (clock env (tick w)) (container_count container)
            (restart_history w !!! container_key namespace name container)).
Proof.
  intros Hge. unfold process_container.
  fold (container_count container). fold (container_key namespace name container).
  destruct (Z.leb_spec (RESTART_THRESHOLD cfg) (container_count container)); [|lia].
  set (key := container_key namespace name container).
  unfold mbind at 1. unfold M_bind at 1.
  rewrite analyze_restart_pattern_run. cbv beta iota zeta.
  match goal with
  | |- restart_history (snd (?rest ?w1)) !! _ = _ =>
      assert (Hrest : same_on restart_history w1 (snd (rest w1)))
  end.
  { apply preserves_bind; [apply _| |].
    - apply preserves_collect_log_snippet; [apply _|reflexivity|reflexivity].
    - intros snippet. apply preserves_bind; [apply _| |intros ?; apply preserves_mret, _].
      apply preserves_send_ntfy_notification; [apply _|reflexivity]. }
  unfold same_on in Hrest. rewrite Hrest. simpl. apply lookup_insert_eq.
Qed.

(** C9: in an ingested pod snapshot, a container status whose restart
    count is strictly below RESTART_THRESHOLD is passed over: nothing is
    recorded and the world is exactly as before, so after the whole
    event the entries of its key in [restart_history] and in
    [last_log_collected] are what they were (as long as no other status
    of the snapshot bears the same key with a count at or above the
    threshold).  A status at or above the threshold has its observation
    appended to the list of its key, which is then pruned. *)
Theorem restart_threshold_gate (pod : Pod) (container : ContainerStatus) (w : World) :
  let namespace := pod_namespace pod in
  let name := pod_name pod in
  let key := container_key namespace name container in
  let count := container_count container in
  container ∈ pod_containers pod ->
  ((count < RESTART_THRESHOLD cfg)%Z ->
   process_container cfg env format_rate namespace name container w = (Ok tt, w) /\
   ((forall other,
        other ∈ pod_containers pod ->
        container_key namespace name other = key ->
        (container_count other < RESTART_THRESHOLD cfg)%Z) ->
    let w' := snd (process_pod_event cfg env format_rate (PodData pod) w) in
    restart_history w' !! key = restart_history w !! key /\
    last_log_collected w' !! key = last_log_collected w !! key)) /\
  ((RESTART_THRESHOLD cfg <= count)%Z ->
   let w' := snd (process_container cfg env format_rate namespace name container w) in
   restart_history w' !! key
   = Some (List.filter
             (fun r => (clock env (tick w) - timedelta_minutes (TIME_WINDOW_MINUTES cfg)
                          <? timestamp r)%Z)
             ((restart_history w !!! key)
                ++ [{| timestamp := clock env (tick w); restart_count := count |}]))).
Proof.
  cbn zeta. intros Hin. split.
  - intros Hlow. split.
    + unfold process_container. fold (container_count container).
      destruct (Z.leb_spec (RESTART_THRESHOLD cfg) (container_count container));
        [lia | reflexivity].
    + intros Hothers.
      destruct (process_pod_event_untouched
                  (container_key (pod_namespace pod) (pod_name pod) container) pod)
        with (w := w) as (Hh & Hl & _); [|split; assumption].
      intros other Hother.
      destruct (decide (container_key (pod_namespace pod) (pod_name pod) other
                        = container_key (pod_namespace pod) (pod_name pod) container))
        as [Heq|Hne]; [right; apply Hothers; assumption | left; exact Hne].
  - intros Hge. apply process_container_records, Hge.
Qed.

(** C10: recording an observation for one key leaves the list of every
    other key as it is, pruning included; so whatever [POST /pods]
    requests are served and whatever the clock reads meanwhile, a key
    that none of them names keeps its list, old observations and all:
    /stats goes on reporting it and /health goes on counting it. *)
Theorem stale_history_persists (k : str) (requests : list FlaskRequest) (w : World) :
  (forall request event,
      request ∈ requests -> from_http request = inr event ->
      k ∉ event_keys (ce_data event)) ->
  let w' := snd (serve cfg env from_http format_rate requests w) in
  (forall key count w0,
      key <> k ->
      restart_history (snd (analyze_restart_pattern cfg env key count w0)) !! k
      = restart_history w0 !! k) /\
  restart_history w' !! k = restart_history w !! k /\
  (forall history,
      restart_history w !! k = Some history ->
      (exists report,
          fst (stats w') = Ok (report, 200%Z) /\ report !! k = stats_entry history) /\
      (exists body,
          fst (health cfg w') = Ok (body, 200%Z) /\
          tracked_pods body = size (restart_history w') /\
          k ∈ dom (restart_history w') /\
          size (restart_history w) <= tracked_pods body)).
Proof.
  cbn zeta. intros Hkeys.
  destruct (serve_untouched k requests Hkeys w) as (Hh & _ & Hdom).
  split; [|split; [exact Hh|]].
  - intros key count w0 Hne.
    destruct (preserves_analyze_restart_pattern (untouched k) cfg env key count)
      with (w := w0) as (Hk & _); [|exact Hk].
    intros h w1. apply untouched_set_restart_history, Hne.
  - intros history Hhist. split.
    + eexists. split; [reflexivity|].
      rewrite lookup_omap, Hh, Hhist. reflexivity.
    + eexists. split; [reflexivity|]. split; [reflexivity|]. split.
      * apply elem_of_dom. rewrite Hh, Hhist. eauto.
      * rewrite <- !size_dom. apply subseteq_size, Hdom.
Qed.

End Events.

(** The gate on a pod with a quiet and a noisy container: the quiet one
    leaves no trace, the noisy one is recorded. *)
Lemma restart_threshold_gate_witness :
  process_container default_config scenario_env example_format_rate
    (lit "prod") (lit "api-7f") quiet_container initial_world = (Ok tt, initial_world) /\
  (let w' := snd (process_pod_event default_config scenario_env example_format_rate
                    (PodData two_container_pod) initial_world) in
   restart_history w' !! lit "prod/api-7f/app" = None /\
   last_log_collected w' !! lit "prod/api-7f/app" = None) /\
  restart_history
    (snd (process_container default_config scenario_env example_format_rate
            (lit "prod") (lit "api-7f") noisy_container initial_world))
    !! lit "prod/api-7f/sidecar"
  = Some [{| timestamp := 0%Z; restart_count := 7%Z |}].
Proof.
  destruct (restart_threshold_gate default_config scenario_env example_format_rate
              two_container_pod quiet_container initial_world) as [Hbelow _];
    [left|].
  destruct Hbelow as [Hskip Hevent]; [vm_compute; reflexivity|].
  split; [exact Hskip|]. split.
  - apply Hevent. intros other Hother Hkey.
    apply list_elem_of_In in Hother. simpl in Hother.
    destruct Hother as [<-|[<-|[]]]; [vm_compute; reflexivity|].
    vm_compute in Hkey. discriminate.
  - destruct (restart_threshold_gate default_config scenario_env example_format_rate
                two_container_pod noisy_container initial_world) as [_ Habove];
      [right; left|].
    apply Habove. vm_compute. discriminate.
Defined.

(** An observation of instant 0 is still stored, reported and counted ten
    hours later, after two events of another pod, under a 60-minute
    window. *)
Lemma stale_history_persists_witness :
  let w' := snd (serve default_config slow_env example_from_http example_format_rate
                   [example_request [8%N]; example_request [9%N]] old_world) in
  restart_history w' !! old_key = Some [{| timestamp := 0%Z; restart_count := 7%Z |}] /\
  restart_history w' !! scenario_key
  = Some [{| timestamp := 36000000000%Z; restart_count := 9%Z |}] /\
  (exists report,
      fst (stats w') = Ok (report, 200%Z) /\
      report !! old_key
      = Some {| total_events := 1; last_restart_count := 7%Z; last_seen := 0%Z |}) /\
  (exists body,
      fst (health default_config w') = Ok (body, 200%Z) /\ tracked_pods body = 2).
Proof.
  cbn zeta.
  destruct (stale_history_persists default_config slow_env example_from_http
              example_format_rate old_key
              [example_request [8%N]; example_request [9%N]] old_world)
    as (_ & Hkept & Hseen).
  { intros request event Hin Hdecode Hkey.
    apply list_elem_of_In in Hin. simpl in Hin.
    destruct Hin as [<-|[<-|[]]]; simpl in Hdecode; injection Hdecode as <-;
      apply list_elem_of_In in Hkey; simpl in Hkey;
      destruct Hkey as [Hkey|[]]; vm_compute in Hkey; discriminate. }
  split; [rewrite Hkept; vm_compute; reflexivity|].
  split; [vm_compute; reflexivity|].
  destruct (Hseen [{| timestamp := 0%Z; restart_count := 7%Z |}])
    as [(report & Hstats & Hentry) (body & Hhealth & Hsize & _)];
    [vm_compute; reflexivity|].
  split.
  - exists report. split; [exact Hstats | exact Hentry].
  - exists body. split; [exact Hhealth|]. rewrite Hsize. vm_compute. reflexivity.
Defined.

(** ** The log fetch *)

Lemma total_seconds_exceeds_300 (td : Z) :
  (300 < total_seconds td)%Q <-> (300000000 < td)%Z.
Proof.
  unfold total_seconds, Qlt, Qdiv, Qmult, Qinv, inject_Z. simpl. lia.
Qed.

Section LogFetch.

Variable cfg : Config.
Variable env : Env.
Variable format_rate : Q -> str.

(** The guard of the log block is false when the key has a recorded
    time that the clock has not passed by more than 300 seconds: the
    block only reads the clock. *)
Lemma collect_log_snippet_skip (namespace name container_name pod_key : str)
    (t : datetime) (w : World) :
  last_log_collected w !! pod_key = Some t ->
  (clock env (tick w) - t <= 300 * 1000000)%Z ->
  collect_log_snippet env namespace name container_name pod_key w
  = (Ok [], next_tick w).
Proof.
  intros Hlast Hrecent.
  unfold collect_log_snippet, datetime_now. step. rewrite Hlast. step.
  destruct (Qlt_le_dec 300 (total_seconds (clock env (tick w) - t))) as [Hgt|_].
  - apply (proj1 (total_seconds_exceeds_300 _)) in Hgt. lia.
  - reflexivity.
Qed.

(** What the log block comes to when its guard holds: [kubectl] runs
    once; when it exits with code 0 and prints nothing there is no
    excerpt and no time is recorded, and in every other case there is an
    excerpt and the reading of the clock that follows the fetch is
    recorded for the key. *)
Lemma collect_log_snippet_fetch (namespace name container_name pod_key : str)
    (w : World) :
  fetch_due env pod_key w ->
  exists snippet w',
    collect_log_snippet env namespace name container_name pod_key w
    = (Ok snippet, w') /\
    kubectl_calls w' = kubectl_calls w ++ [(namespace, name, container_name, 50%Z)] /\
    restart_history w' = restart_history w /\
    posted w' = posted w /\
    length snippet <= 532 /\
    (empty_answer env (fetch_tick pod_key w) /\
     snippet = [] /\ last_log_collected w' = last_log_collected w /\
     tick w' = S (fetch_tick pod_key w)
     \/
     ~ empty_answer env (fetch_tick pod_key w) /\
     snippet <> [] /\
     last_log_collected w'
     = <[pod_key := clock env (S (fetch_tick pod_key w))]> (last_log_collected w) /\
     tick w' = S (S (fetch_tick pod_key w))).
Proof.
  intros Hdue.
  assert (Hfetch : forall w0,
    exists snippet w',
      (logs ← get_pod_logs env namespace name container_name 50;
       if bool_decide (logs = []) then mret []
       else
         now ← datetime_now env;
         modify (fun w =>
           set_last_log_collected (<[pod_key := now]> (last_log_collected w)) w);;
         mret (nl ++ lit "=== " ++ [218%N] ++ lit "LTIMAS LINHAS DO LOG ===" ++ nl
                 ++ tail_slice 500 logs ++ nl)) w0
      = (Ok snippet, w') /\
      kubectl_calls w' = kubectl_calls w0 ++ [(namespace, name, container_name, 50%Z)] /\
      restart_history w' = restart_history w0 /\
      posted w' = posted w0 /\
      length snippet <= 532 /\
      (empty_answer env (tick w0) /\
       snippet = [] /\ last_log_collected w' = last_log_collected w0 /\
       tick w' = S (tick w0)
       \/
       ~ empty_answer env (tick w0) /\
       snippet <> [] /\
       last_log_collected w' = <[pod_key := clock env (S (tick w0))]> (last_log_collected w0) /\
       tick w' = S (S (tick w0)))).
  { intros w0. unfold get_pod_logs, kubectl_logs, datetime_now. step.
    assert (Hlen : forall logs : str,
               length (nl ++ lit "=== " ++ [218%N] ++ lit "LTIMAS LINHAS DO LOG ==="
                         ++ nl ++ tail_slice 500 logs ++ nl) <= 532).
    { intros logs. rewrite !length_app. unfold tail_slice. rewrite length_drop.
      simpl. lia. }
    destruct (subprocess_run env (tick w0)) as [e|result] eqn:Hrun; step.
    - do 2 eexists. split; [reflexivity|]. split; [reflexivity|].
      split; [reflexivity|]. split; [reflexivity|]. split; [apply Hlen|]. right.
      split; [intros (? & Hr & _); rewrite Hrun in Hr; discriminate|].
      split; [discriminate|]. split; reflexivity.
    - destruct (Z.eqb_spec (returncode result) 0) as [Hrc|Hrc]; step.
      + destruct (bool_decide (stdout result = [])) eqn:Hempty; step.
        * apply bool_decide_eq_true in Hempty.
          do 2 eexists. split; [reflexivity|]. split; [reflexivity|].
          split; [reflexivity|]. split; [reflexivity|]. split; [simpl; lia|]. left.
          split; [exists result; auto|]. split; [reflexivity|]. split; reflexivity.
        * apply bool_decide_eq_false in Hempty.
          do 2 eexists. split; [reflexivity|]. split; [reflexivity|].
          split; [reflexivity|]. split; [reflexivity|]. split; [apply Hlen|]. right.
          split; [intros (? & Hr & _ & Hout); rewrite Hrun in Hr;
                  injection Hr as <-; contradiction|].
          split; [discriminate|]. split; reflexivity.
      + do 2 eexists. split; [reflexivity|]. split; [reflexivity|].
        split; [reflexivity|]. split; [reflexivity|]. split; [apply Hlen|]. right.
        split; [intros (? & Hr & Hzero & _); rewrite Hrun in Hr;
                injection Hr as <-; contradiction|].
        split; [discriminate|]. split; reflexivity. }
  unfold collect_log_snippet.
  match goal with
  | |- context [mbind ?k (get_pod_logs env namespace name container_name 50)] =>
      set (fetch := mbind k (get_pod_logs env namespace name container_name 50)) in *
  end.
  clearbody fetch. unfold datetime_now. step.
  unfold fetch_due, fetch_tick in *.
  destruct (last_log_collected w !! pod_key) as [t|]; step.
  - destruct (Qlt_le_dec 300 (total_seconds (clock env (tick w) - t))) as [_|Hle].
    + exact (Hfetch (next_tick w)).
    + apply Qle_not_lt in Hle. destruct Hle. apply total_seconds_exceeds_300, Hdue.
  - exact (Hfetch w).
Qed.

(** C7, as the code has it: an attempt to fetch the logs of a key is
    skipped whenever the key has a recorded last-fetched timestamp and
    the clock reads 300 seconds past it or less: [kubectl] is not
    invoked and the mapping of recorded times stays as it is.  Otherwise
    [kubectl] is invoked once, and the time is recorded for the key only
    when the fetch brings something back, as the reading of the clock
    taken right after it: when [kubectl] exits with code 0 and prints
    nothing the mapping stays as it is, so that for a key with no
    recorded time the next attempt fetches again however soon it
    comes. *)
Theorem collect_log_snippet_rate_limit (namespace name container_name pod_key : str)
    (w : World) :
  let out := collect_log_snippet env namespace name container_name pod_key w in
  (forall t,
      last_log_collected w !! pod_key = Some t ->
      (clock env (tick w) - t <= 300 * 1000000)%Z ->
      fst out = Ok [] /\
      kubectl_calls (snd out) = kubectl_calls w /\
      last_log_collected (snd out) = last_log_collected w) /\
  (fetch_due env pod_key w ->
   kubectl_calls (snd out)
   = kubectl_calls w ++ [(namespace, name, container_name, 50%Z)] /\
   (empty_answer env (fetch_tick pod_key w) ->
    fst out = Ok [] /\ last_log_collected (snd out) = last_log_collected w /\
    (last_log_collected w !! pod_key = None -> fetch_due env pod_key (snd out))) /\
   (~ empty_answer env (fetch_tick pod_key w) ->
    fst out <> Ok [] /\
    last_log_collected (snd out)
    = <[pod_key := clock env (S (fetch_tick pod_key w))]> (last_log_collected w))).
Proof.
  cbn zeta. split.
  - intros t Hlast Hrecent.
    rewrite (collect_log_snippet_skip _ _ _ _ t w Hlast Hrecent). repeat split.
  - intros Hdue.
    destruct (collect_log_snippet_fetch namespace name container_name pod_key w Hdue)
      as (snippet & w' & -> & Hcalls & _ & _ & _ & Hcase).
    cbn [fst snd]. split; [exact Hcalls|].
    destruct Hcase as [(Hempty & -> & Hlast & _)|(Hfull & Hne & Hlast & _)].
    + split; [|intros Hfull; contradiction].
      intros _. split; [reflexivity|]. split; [exact Hlast|].
      intros Hnone. unfold fetch_due. rewrite Hlast, Hnone. exact I.
    + split; [intros Hempty; contradiction|].
      intros _. split; [|exact Hlast]. intros [= Heq]. contradiction.
Qed.

(** The other branch: with no recorded timestamp for the key the fetch
    is made at once, and a non-empty result records the reading of the
    clock that follows it. *)
Lemma collect_log_snippet_first_fetch (namespace name container_name pod_key : str)
    (w : World) :
  last_log_collected w !! pod_key = None ->
  let out := collect_log_snippet env namespace name container_name pod_key w in
  kubectl_calls (snd out)
  = kubectl_calls w ++ [(namespace, name, container_name, 50%Z)] /\
  (fst out <> Ok [] ->
   last_log_collected (snd out) !! pod_key = Some (clock env (S (tick w)))).
Proof.
  intros Hnone. cbn zeta.
  unfold collect_log_snippet. step. rewrite Hnone.
  unfold get_pod_logs, kubectl_logs, datetime_now. step.
  destruct (subprocess_run env (tick w)) as [e|result]; step.
  - split; [reflexivity|]. intros _. apply lookup_insert_eq.
  - destruct (returncode result =? 0)%Z; step.
    + destruct (bool_decide (stdout result = [])) eqn:Hempty; step.
      * split; [reflexivity|]. intros Hne. destruct Hne. reflexivity.
      * split; [reflexivity|]. intros _. apply lookup_insert_eq.
    + split; [reflexivity|]. intros _. apply lookup_insert_eq.
Qed.

(** And with a recorded timestamp that the clock has passed by more
    than 300 seconds the fetch is made again. *)
Lemma collect_log_snippet_refetch (namespace name container_name pod_key : str)
    (t : datetime) (w : World) :
  last_log_collected w !! pod_key = Some t ->
  (300 * 1000000 < clock env (tick w) - t)%Z ->
  kubectl_calls (snd (collect_log_snippet env namespace name container_name pod_key w))
  = kubectl_calls w ++ [(namespace, name, container_name, 50%Z)].
Proof.
  intros Hlast Hlate.
  unfold collect_log_snippet, datetime_now. step. rewrite Hlast. step.
  destruct (Qlt_le_dec 300 (total_seconds (clock env (tick w) - t))) as [_|Hle].
  - unfold get_pod_logs, kubectl_logs. step. cbn [tick next_tick].
    destruct (subprocess_run env (S (tick w))) as [e|result]; step; [reflexivity|].
    destruct (returncode result =? 0)%Z; step; [|reflexivity].
    destruct (bool_decide (stdout result = [])); reflexivity.
  - apply Qle_not_lt in Hle. destruct Hle.
    apply total_seconds_exceeds_300. lia.
Qed.

(** The same at the level of one container status of an event: the
    reading compared is the one that follows the reading of the
    analysis. *)
Lemma process_container_skip_preserves (R : relation World) `{!Tolerant R}
    (namespace name : str) (container : ContainerStatus) (t : datetime) (w : World) :
  (forall r w0, R w0 (add_posted r w0)) ->
  (forall h w0,
      R w0 (set_restart_history
              (<[container_key namespace name container := h]> (restart_history w0))
              w0)) ->
  (RESTART_THRESHOLD cfg <= container_count container)%Z ->
  last_log_collected w !! container_key namespace name container = Some t ->
  (clock env (S (tick w)) - t <= 300 * 1000000)%Z ->
  R w (snd (process_container cfg env format_rate namespace name container w)).
Proof.
  intros Hposted Hset Hge Hlast Hrecent. unfold process_container.
  fold (container_count container). fold (container_key namespace name container).
  destruct (Z.leb_spec (RESTART_THRESHOLD cfg) (container_count container)); [|lia].
  set (key := container_key namespace name container) in *.
  unfold mbind at 1. unfold M_bind at 1.
  rewrite analyze_restart_pattern_run. cbv beta iota zeta.
  unfold mbind at 1. unfold M_bind at 1.
  match goal with
  | |- context [collect_log_snippet env ?ns ?n ?c key ?w1] =>
      assert (Hw1 : R w w1)
        by (etransitivity; [apply tolerant_tick | apply (Hset _ (next_tick w))]);
      rewrite (collect_log_snippet_skip ns n c key t w1 Hlast Hrecent)
  end.
  etransitivity; [exact Hw1|]. etransitivity; [apply tolerant_tick|].
  apply preserves_bind; [apply _| |intros ?; apply preserves_mret, _].
  apply preserves_send_ntfy_notification; [apply _|exact Hposted].
Qed.

Lemma process_container_skips_log_fetch (namespace name : str)
    (container : ContainerStatus) (t : datetime) (w : World) :
  (RESTART_THRESHOLD cfg <= container_count container)%Z ->
  last_log_collected w !! container_key namespace name container = Some t ->
  (clock env (S (tick w)) - t <= 300 * 1000000)%Z ->
  let w' := snd (process_container cfg env format_rate namespace name container w) in
  kubectl_calls w' = kubectl_calls w /\
  last_log_collected w' = last_log_collected w.
Proof.
  intros Hge Hlast Hrecent. split.
  - apply (process_container_skip_preserves (same_on kubectl_calls) _ _ _ t);
      [reflexivity | reflexivity | assumption..].
  - apply (process_container_skip_preserves (same_on last_log_collected) _ _ _ t);
      [reflexivity | reflexivity | assumption..].
Qed.

End LogFetch.

(** A first attempt fetches and records minute 5; the next attempt, read
    at minute 10, is exactly 300 seconds later and is skipped. *)
Lemma collect_log_snippet_rate_limit_witness :
  let attempt :=
    collect_log_snippet scenario_env (lit "prod") (lit "api-7f") (lit "app") scenario_key in
  let w1 := snd (attempt initial_world) in
  length (kubectl_calls w1) = 1 /\
  last_log_collected w1 !! scenario_key = Some 300000000%Z /\
  clock scenario_env (tick w1) = 600000000%Z /\
  fst (attempt w1) = Ok [] /\
  kubectl_calls (snd (attempt w1)) = kubectl_calls w1 /\
  last_log_collected (snd (attempt w1)) = last_log_collected w1.
Proof.
  cbn zeta.
  split; [vm_compute; reflexivity|].
  split; [vm_compute; reflexivity|].
  split; [vm_compute; reflexivity|].
  destruct (collect_log_snippet_rate_limit scenario_env
              (lit "prod") (lit "api-7f") (lit "app") scenario_key
              (snd (collect_log_snippet scenario_env (lit "prod") (lit "api-7f")
                      (lit "app") scenario_key initial_world)))
    as (Hskip & _).
  apply (Hskip 300000000%Z).
  - vm_compute. reflexivity.
  - vm_compute. discriminate.
Defined.

(** C7, as stated, fails when [kubectl] succeeds without printing
    anything: with the clock standing still, three events for the same
    container run [kubectl] three times within the same instant, and no
    time is ever recorded for the key. *)
Lemma empty_logs_are_fetched_at_every_alert :
  let w' := snd (serve default_config silent_env example_from_http example_format_rate
                   [example_request [8%N]; example_request [9%N]; example_request [10%N]]
                   initial_world) in
  kubectl_calls w'
  = [(lit "prod", lit "api-7f", lit "app", 50%Z);
     (lit "prod", lit "api-7f", lit "app", 50%Z);
     (lit "prod", lit "api-7f", lit "app", 50%Z)] /\
  last_log_collected w' !! scenario_key = None /\
  (forall i j, (clock silent_env j - clock silent_env i <= 300 * 1000000)%Z).
Proof.
  cbn zeta. split; [vm_compute; reflexivity|].
  split; [vm_compute; reflexivity|]. intros i j. simpl. lia.
Qed.

(** ** The handler of [POST /pods] *)

Section Handler.

Variable cfg : Config.
Variable env : Env.
Variable from_http : FlaskRequest -> exn + CloudEvent.
Variable format_rate : Q -> str.

(** C6: a request whose body the envelope decoder rejects is answered
    with status 500 and the text of the error, and neither
    [restart_history] nor [last_log_collected] changes; the world
    differs only by the line written to the log. *)
Theorem handle_pod_event_unparseable (request : FlaskRequest) (e : exn) (w : World) :
  from_http request = inl e ->
  let out := handle_pod_event cfg env from_http format_rate request w in
  fst out = Ok (StatusError (Some (exn_text e)), 500%Z) /\
  restart_history (snd out) = restart_history w /\
  last_log_collected (snd out) = last_log_collected w /\
  snd out
  = add_log (LogError (lit "Erro ao processar requisi" ++ [231%N; 227%N] ++ lit "o: "
                         ++ exn_text e)) w.
Proof.
  intros Hdecode. cbn zeta. unfold handle_pod_event. step.
  rewrite Hdecode. repeat split.
Qed.

End Handler.

(** An empty body is rejected by the decoder: status 500, the text of the
    error, and the two dictionaries of the scenario as they were. *)
Lemma handle_pod_event_unparseable_witness :
  let out := handle_pod_event default_config scenario_env example_from_http
               example_format_rate (example_request []) scenario_two in
  fst out
  = Ok (StatusError (Some (lit "Failed to read specversion from both headers and data")),
        500%Z) /\
  restart_history (snd out) = restart_history scenario_two /\
  last_log_collected (snd out) = last_log_collected scenario_two.
Proof.
  destruct (handle_pod_event_unparseable default_config scenario_env example_from_http
              example_format_rate (example_request [])
              (Exn OtherError (lit "Failed to read specversion from both headers and data"))
              scenario_two) as (Hanswer & Hhistory & Hlast & _).
  - reflexivity.
  - split; [exact Hanswer|]. split; [exact Hhistory | exact Hlast].
Defined.

(** ** The notifier *)



Lemma encode_utf8_ascii (s : str) :
  Forall (fun c => (c < 128)%N) s -> encode_utf8 s = Some s.
Proof.
  induction 1 as [|c s Hc _ IH]; [reflexivity|].
  simpl. rewrite IH. unfold utf8_char.
  apply N.ltb_lt in Hc. rewrite Hc. reflexivity.
Qed.



Section Notifier.

Variable cfg : Config.
Variable env : Env.

(** C8: sending never raises: the outcome is always a boolean.  When
    the transport raises, and when it answers with a status outside
    200..299, the boolean is [false] and one error line is added to the
    log. *)
Theorem send_ntfy_notification_reports_failure (title message priority : str)
    (tags : Tags) (w : World) :
  let out := send_ntfy_notification cfg env title message priority tags w in
  (exists sent, fst out = Ok sent) /\
  (forall e,
      requests_post env (tick w) = inl e ->
      fst out = Ok false /\ exists msg, logged (snd out) = logged w ++ [LogError msg]) /\
  (forall response,
      requests_post env (tick w) = inr response ->
      ~ (200 <= status_code response < 300)%Z ->
      fst out = Ok false /\ exists msg, logged (snd out) = logged w ++ [LogError msg]) /\
  (fst out = Ok true ->
   exists response,
     requests_post env (tick w) = inr response /\ status_code response = 200%Z).
Proof.
  cbn zeta. unfold send_ntfy_notification, encode. step.
  destruct (encode_utf8 message) as [bytes|]; step.
  - unfold post. step.
    destruct (requests_post env (tick w)) as [e|response]; step.
    + split; [eauto|]. split; [|split; [intros ? [=]|intros [=]]].
      intros ? _. split; [reflexivity|]. eexists. reflexivity.
    + destruct (Z.eqb_spec (status_code response) 200) as [Hok|Hko]; step.
      * split; [eauto|]. split; [intros ? [=]|]. split; [|eauto].
        intros ? [= <-] Hbad. lia.
      * split; [eauto|]. split; [intros ? [=]|]. split; [|intros [=]].
        intros ? _ _. split; [reflexivity|]. eexists. reflexivity.
  - split; [eauto|]. split; [|split; [|intros [=]]].
    + intros ? _. split; [reflexivity|]. eexists. reflexivity.
    + intros ? _ _. split; [reflexivity|]. eexists. reflexivity.
Qed.


End Notifier.



(** A transport that answers 503 makes the notifier return [false]. *)
Lemma send_ntfy_notification_reports_failure_witness :
  let refusing := {| clock := clock scenario_env;
                     subprocess_run := subprocess_run scenario_env;
                     requests_post := fun _ => inr {| status_code := 503;
                                                      text := lit "try later" |} |} in
  fst (send_ntfy_notification default_config refusing critical_title (lit "pod down")
         (lit "max") warning_siren initial_world) = Ok false.
Proof.
  cbn zeta.
  match goal with
  | |- fst (send_ntfy_notification ?c ?e ?t ?m ?p ?g ?w) = _ =>
      destruct (send_ntfy_notification_reports_failure c e t m p g w)
        as (_ & _ & Hstatus & _)
  end.
  apply (Hstatus {| status_code := 503; text := lit "try later" |}).
  - reflexivity.
  - simpl. lia.
Defined.

(** ** The alert of a container status *)

#[local] Instance same_on_posted_tolerant : Tolerant (same_on posted).
Proof. split; [apply same_on_preorder | reflexivity..]. Qed.

Section Alert.

Variable cfg : Config.
Variable env : Env.
Variable format_rate : Q -> str.

(** A call of the notifier hands at most one request to the transport:
    none when the message has no UTF-8 encoding. *)
Lemma send_ntfy_notification_posted (title message priority : str) (tags : Tags)
    (w : World) :
  let out := send_ntfy_notification cfg env title message priority tags w in
  encode_utf8 message = None /\ posted (snd out) = posted w \/
  exists body,
    encode_utf8 message = Some body /\
    posted (snd out) = posted w ++ [ntfy_request cfg title priority tags body].
Proof.
  cbn zeta. unfold send_ntfy_notification, encode. step.
  destruct (encode_utf8 message) as [body|]; step; [|left; split; reflexivity].
  right. exists body. split; [reflexivity|].
  unfold post, ntfy_request. step.
  destruct (tags_truthy tags);
    (destruct (requests_post env (tick w)) as [e|response]; step; [reflexivity|]);
    (destruct (status_code response =? 200)%Z; step; reflexivity).
Qed.

(** The alert of a container status at or above the threshold is the
    only request its processing posts (none is posted when the message
    has no UTF-8 encoding); its title is the alert title with the
    cluster name, its priority the severity of the restart count, its
    tags [warning] and [rotating_light]. *)
Lemma process_container_alert (namespace name : str) (container : ContainerStatus)
    (w : World) :
  (RESTART_THRESHOLD cfg <= container_count container)%Z ->
  exists sent,
    posted (snd (process_container cfg env format_rate namespace name container w))
    = posted w ++ sent /\
    (sent = [] \/
     exists body,
       sent = [ntfy_request cfg (lit "ALERT: Pod Restarts - " ++ CLUSTER_NAME cfg)
                 (severity (container_count container))
                 (TagsList [lit "warning"; lit "rotating_light"]) body]).
Proof.
  intros Hge. unfold process_container.
  fold (container_count container). fold (container_key namespace name container).
  destruct (Z.leb_spec (RESTART_THRESHOLD cfg) (container_count container)); [|lia].
  set (key := container_key namespace name container).
  unfold mbind at 1. unfold M_bind at 1.
  rewrite analyze_restart_pattern_run. cbv beta iota zeta.
  unfold mbind at 1. unfold M_bind at 1.
  match goal with
  | |- context [collect_log_snippet env ?ns ?n ?c key ?w1] =>
      pose proof (preserves_collect_log_snippet (same_on posted)
                    (fun _ _ => eq_refl) env ns n c key (fun _ _ => eq_refl) w1) as Hkept;
      destruct (collect_log_snippet env ns n c key w1) as [[snippet|e] w2]
  end; unfold same_on in Hkept; cbn [snd] in Hkept;
    assert (Hw2 : posted w2 = posted w) by exact Hkept; clear Hkept.
  - unfold mbind at 1. unfold M_bind at 1.
    match goal with
    | |- context [send_ntfy_notification cfg env ?t ?m ?p ?g w2] =>
        pose proof (send_ntfy_notification_posted t m p g w2) as Hsend;
        cbn zeta in Hsend;
        destruct (send_ntfy_notification cfg env t m p g w2) as [[sent|e] w3]
    end; step; cbn [snd] in Hsend |- *;
      (destruct Hsend as [[_ Hnone]|(body & _ & Hsent)];
       [exists []; rewrite app_nil_r; split; [congruence | left; reflexivity]
       |eexists; split; [rewrite Hsent, Hw2; reflexivity | right; eauto]]).
  - exists []. rewrite app_nil_r. cbn [snd]. split; [exact Hw2 | left; reflexivity].
Qed.

End Alert.

(** * Further properties of the service *)

(** ** The log fetch, whatever [kubectl] does *)

Section Logs.

Variable cfg : Config.
Variable env : Env.

(** What a call of [get_pod_logs] comes to. *)
Lemma get_pod_logs_run (namespace pod_name container_name : str) (lines : Z)
    (w : World) :
  exists logs w',
    get_pod_logs env namespace pod_name container_name lines w = (Ok logs, w') /\
    (logs = [] ->
     exists result,
       subprocess_run env (tick w) = inr result /\
       returncode result = 0%Z /\ stdout result = []) /\
    kubectl_calls w'
    = kubectl_calls w ++ [(namespace, pod_name, container_name, lines)] /\
    restart_history w' = restart_history w /\
    last_log_collected w' = last_log_collected w /\
    posted w' = posted w /\
    tick w' = S (tick w).
Proof.
  unfold get_pod_logs, kubectl_logs. step.
  destruct (subprocess_run env (tick w)) as [e|result]; step.
  - do 2 eexists. split; [reflexivity|]. split; [|repeat split].
    intros Hempty. vm_compute in Hempty. discriminate.
  - destruct (Z.eqb_spec (returncode result) 0) as [Hrc|Hrc]; step.
    + do 2 eexists. split; [reflexivity|]. split; [|repeat split].
      intros Hempty. exists result. repeat split; assumption.
    + do 2 eexists. split; [reflexivity|]. split; [|repeat split].
      intros Hempty. apply (f_equal (@length N)) in Hempty.
      rewrite length_app in Hempty. vm_compute in Hempty. discriminate.
Qed.

(** [get_pod_logs] never raises.  It runs [kubectl] once, with the
    names and the number of lines it was given, and changes nothing else
    but the log; the text it returns is empty only when [kubectl] exited
    with code 0 and printed nothing. *)
Theorem get_pod_logs_total (namespace pod_name container_name : str) (lines : Z)
    (w : World) :
  let out := get_pod_logs env namespace pod_name container_name lines w in
  (exists logs,
      fst out = Ok logs /\
      (logs = [] ->
       exists result,
         subprocess_run env (tick w) = inr result /\
         returncode result = 0%Z /\ stdout result = [])) /\
  kubectl_calls (snd out)
  = kubectl_calls w ++ [(namespace, pod_name, container_name, lines)] /\
  restart_history (snd out) = restart_history w /\
  last_log_collected (snd out) = last_log_collected w /\
  posted (snd out) = posted w.
Proof.
  cbn zeta.
  destruct (get_pod_logs_run namespace pod_name container_name lines w)
    as (logs & w' & -> & Hempty & Hcalls & Hhist & Hlast & Hposted & _).
  simpl. split; [eauto|]. repeat split; assumption.
Qed.

Lemma length_tail_slice {A} (n : nat) (s : list A) : length (tail_slice n s) <= n.
Proof. unfold tail_slice. rewrite length_drop. lia. Qed.

(** What the log block of an alert comes to: it never raises, it runs
    [kubectl] at most once, and it produces an excerpt exactly when it
    records a new last-collected time for the key. *)
Lemma collect_log_snippet_run (namespace name container_name pod_key : str)
    (w : World) :
  exists snippet w',
    collect_log_snippet env namespace name container_name pod_key w
    = (Ok snippet, w') /\
    length snippet <= 532 /\
    restart_history w' = restart_history w /\
    posted w' = posted w /\
    (snippet = [] /\ last_log_collected w' = last_log_collected w /\
     (kubectl_calls w' = kubectl_calls w \/
      kubectl_calls w'
      = kubectl_calls w ++ [(namespace, name, container_name, 50%Z)])
     \/
     snippet <> [] /\
     (exists t, last_log_collected w' = <[pod_key := t]> (last_log_collected w)) /\
     kubectl_calls w' = kubectl_calls w ++ [(namespace, name, container_name, 50%Z)]).
Proof.
  unfold collect_log_snippet.
  match goal with
  | |- context [mbind ?k (get_pod_logs env namespace name container_name 50)] =>
      set (fetch := mbind k (get_pod_logs env namespace name container_name 50))
  end.
  assert (Hfetch : forall w0,
    exists snippet w',
      fetch w0
      = (Ok snippet, w') /\
      length snippet <= 532 /\
      restart_history w' = restart_history w0 /\
      posted w' = posted w0 /\
      (snippet = [] /\ last_log_collected w' = last_log_collected w0 /\
       kubectl_calls w'
       = kubectl_calls w0 ++ [(namespace, name, container_name, 50%Z)]
       \/
       snippet <> [] /\
       (exists t, last_log_collected w' = <[pod_key := t]> (last_log_collected w0)) /\
       kubectl_calls w'
       = kubectl_calls w0 ++ [(namespace, name, container_name, 50%Z)])).
  { intros w0.
    destruct (get_pod_logs_run namespace name container_name 50 w0)
      as (logs & w1 & Hrun & _ & Hcalls & Hhist & Hlast & Hposted & _).
    unfold fetch. unfold mbind at 1. unfold M_bind at 1. rewrite Hrun.
    destruct (bool_decide (logs = [])); [|unfold datetime_now]; step.
    - do 2 eexists. split; [reflexivity|]. split; [simpl; lia|].
      split; [exact Hhist|]. split; [exact Hposted|]. left. auto.
    - do 2 eexists. split; [reflexivity|]. split.
      { rewrite !length_app. pose proof (length_tail_slice 500 logs). simpl. lia. }
      split; [exact Hhist|]. split; [exact Hposted|]. right.
      split; [discriminate|]. split; [|exact Hcalls].
      eexists. simpl. rewrite Hlast. reflexivity. }
  clearbody fetch. unfold datetime_now. step.
  destruct (last_log_collected w !! pod_key) as [t|]; step.
  - destruct (Qlt_le_dec 300 (total_seconds (clock env (tick w) - t))).
    + destruct (Hfetch (next_tick w))
        as (snippet & w' & -> & Hlen & Hhist & Hposted & Hcase).
      exists snippet, w'. split; [reflexivity|]. split; [exact Hlen|].
      split; [exact Hhist|]. split; [exact Hposted|].
      destruct Hcase as [(-> & Hlast & Hcalls)|(Hne & Hlast & Hcalls)];
        [left | right]; auto.
    + do 2 eexists. split; [reflexivity|]. split; [simpl; lia|].
      split; [reflexivity|]. split; [reflexivity|]. left. auto.
  - destruct (Hfetch w) as (snippet & w' & -> & Hlen & Hhist & Hposted & Hcase).
    exists snippet, w'. split; [reflexivity|]. split; [exact Hlen|].
    split; [exact Hhist|]. split; [exact Hposted|].
    destruct Hcase as [(-> & Hlast & Hcalls)|(Hne & Hlast & Hcalls)];
      [left | right]; auto.
Qed.

(** The excerpt of logs that goes into an alert is at most 532 code
    points long (500 of log and a frame).  When there is no excerpt the
    mapping of last-collected times is left as it was, whether [kubectl]
    ran or not.  When there is one, the guard of the block held,
    [kubectl] ran once, and the time of the key is set, recorded before
    or not, to the reading of the clock taken right after the fetch,
    which is the last question the block asks of the outside. *)
Theorem collect_log_snippet_excerpt (namespace name container_name pod_key : str)
    (w : World) :
  let out := collect_log_snippet env namespace name container_name pod_key w in
  exists snippet,
    fst out = Ok snippet /\
    length snippet <= 532 /\
    (snippet = [] -> last_log_collected (snd out) = last_log_collected w) /\
    (snippet <> [] ->
     fetch_due env pod_key w /\
     last_log_collected (snd out)
     = <[pod_key := clock env (S (fetch_tick pod_key w))]> (last_log_collected w) /\
     tick (snd out) = S (S (fetch_tick pod_key w)) /\
     kubectl_calls (snd out)
     = kubectl_calls w ++ [(namespace, name, container_name, 50%Z)]).
Proof.
  cbn zeta.
  assert (Hcases :
    (exists t, last_log_collected w !! pod_key = Some t /\
               (clock env (tick w) - t <= 300 * 1000000)%Z)
    \/ fetch_due env pod_key w).
  { unfold fetch_due. destruct (last_log_collected w !! pod_key) as [t|]; [|right; exact I].
    destruct (Z_le_gt_dec (clock env (tick w) - t) (300 * 1000000)) as [Hle|Hgt].
    - left. exists t. split; [reflexivity | exact Hle].
    - right. lia. }
  destruct Hcases as [(t & Hlast & Hrecent)|Hdue].
  - rewrite (collect_log_snippet_skip env namespace name container_name pod_key t w
               Hlast Hrecent).
    exists []. cbn [fst snd]. split; [reflexivity|]. split; [simpl; lia|].
    split; [intros _; reflexivity|]. intros Hne. destruct Hne. reflexivity.
  - destruct (collect_log_snippet_fetch env namespace name container_name pod_key w Hdue)
      as (snippet & w' & -> & Hcalls & _ & _ & Hlen & Hcase).
    exists snippet. cbn [fst snd]. split; [reflexivity|]. split; [exact Hlen|].
    destruct Hcase as [(_ & -> & Hkept & _)|(_ & Hne & Hset & Htick)].
    + split; [intros _; exact Hkept|]. intros Hne. destruct Hne. reflexivity.
    + split; [intros ->; destruct Hne; reflexivity|]. intros _.
      split; [exact Hdue|]. split; [exact Hset|]. split; [exact Htick | exact Hcalls].
Qed.

End Logs.

(** ** What an event does to the outside *)

Section Effects.

Variable cfg : Config.
Variable env : Env.
Variable from_http : FlaskRequest -> exn + CloudEvent.
Variable format_rate : Q -> str.

(** The notifier never raises, runs no [kubectl] and leaves the two
    dictionaries alone. *)
Lemma send_ntfy_notification_run (title message priority : str) (tags : Tags)
    (w : World) :
  exists sent w',
    send_ntfy_notification cfg env title message priority tags w = (Ok sent, w') /\
    restart_history w' = restart_history w /\
    last_log_collected w' = last_log_collected w /\
    kubectl_calls w' = kubectl_calls w.
Proof.
  unfold send_ntfy_notification, encode. step.
  destruct (encode_utf8 message) as [body|]; step.
  - unfold post. step.
    destruct (requests_post env (tick w)) as [e|response]; step.
    + do 2 eexists. split; [reflexivity|]. repeat split.
    + destruct (status_code response =? 200)%Z; step;
        (do 2 eexists; split; [reflexivity|]; repeat split).
  - do 2 eexists. split; [reflexivity|]. repeat split.
Qed.

(** One container status: the processing never raises; a status below
    the threshold leaves the world as it is, one at or above it posts at
    most its alert and runs [kubectl] at most once. *)
Lemma process_container_run (namespace name : str) (container : ContainerStatus)
    (w : World) :
  exists sent calls w',
    process_container cfg env format_rate namespace name container w = (Ok tt, w') /\
    posted w' = posted w ++ sent /\
    kubectl_calls w' = kubectl_calls w ++ calls /\
    (if (RESTART_THRESHOLD cfg <=? container_count container)%Z
     then length calls <= 1 /\
          (sent = [] \/
           exists body,
             sent = [ntfy_request cfg (lit "ALERT: Pod Restarts - " ++ CLUSTER_NAME cfg)
                       (severity (container_count container))
                       (TagsList [lit "warning"; lit "rotating_light"]) body])
     else sent = [] /\ calls = [] /\ w' = w).
Proof.
  destruct (Z.leb_spec (RESTART_THRESHOLD cfg) (container_count container))
    as [Hge|Hlow].
  - assert (Hrun : exists calls w',
              process_container cfg env format_rate namespace name container w
              = (Ok tt, w') /\
              kubectl_calls w' = kubectl_calls w ++ calls /\ length calls <= 1).
    { unfold process_container.
      fold (container_count container). fold (container_key namespace name container).
      destruct (Z.leb_spec (RESTART_THRESHOLD cfg) (container_count container)); [|lia].
      set (key := container_key namespace name container).
      unfold mbind at 1. unfold M_bind at 1.
      rewrite analyze_restart_pattern_run. cbv beta iota zeta.
      unfold mbind at 1. unfold M_bind at 1.
      match goal with
      | |- context [collect_log_snippet env ?ns ?n ?c key ?w1] =>
          destruct (collect_log_snippet_run env ns n c key w1)
            as (snippet & w2 & -> & _ & _ & _ & Hcase)
      end.
      unfold mbind at 1. unfold M_bind at 1.
      match goal with
      | |- context [send_ntfy_notification cfg env ?t ?m ?p ?g w2] =>
          destruct (send_ntfy_notification_run t m p g w2)
            as (ok & w3 & -> & _ & _ & Hcalls)
      end.
      step.
      assert (Hk : kubectl_calls w2 = kubectl_calls w \/
                   kubectl_calls w2
                   = kubectl_calls w
                       ++ [(namespace, name, default (lit "unknown") (c_name container),
                            50%Z)])
        by (destruct Hcase as [(_ & _ & Hk)|(_ & _ & Hk)]; [exact Hk | right; exact Hk]).
      destruct Hk as [Hk|Hk].
      - exists [], w3. split; [reflexivity|].
        split; [rewrite app_nil_r; congruence | simpl; lia].
      - eexists _, w3. split; [reflexivity|].
        split; [rewrite Hcalls; exact Hk | simpl; lia]. }
    destruct Hrun as (calls & w' & Hrun & Hcalls & Hlen).
    destruct (process_container_alert cfg env format_rate namespace name container w Hge)
      as (sent & Hposted & Hsent).
    rewrite Hrun in Hposted. cbn [snd] in Hposted.
    exists sent, calls, w'. split; [exact Hrun|]. split; [exact Hposted|].
    split; [exact Hcalls|]. split; [exact Hlen | exact Hsent].
  - exists [], [], w. unfold process_container. fold (container_count container).
    destruct (Z.leb_spec (RESTART_THRESHOLD cfg) (container_count container)); [lia|].
    rewrite !app_nil_r. repeat split.
Qed.

(** The loop over the container statuses of a pod. *)
Lemma for_each_container_run (namespace name : str)
    (containers : list ContainerStatus) (w : World) :
  exists sent calls w',
    for_each containers (process_container cfg env format_rate namespace name) w
    = (Ok tt, w') /\
    posted w' = posted w ++ sent /\
    kubectl_calls w' = kubectl_calls w ++ calls /\
    length sent <= length (noisy cfg containers) /\
    length calls <= length (noisy cfg containers) /\
    Forall (alert_of cfg containers) sent.
Proof.
  revert w. induction containers as [|c containers IH]; intros w.
  - exists [], [], w. rewrite !app_nil_r. simpl. repeat split; auto.
  - destruct (process_container_run namespace name c w)
      as (sent1 & calls1 & w1 & Hrun & Hposted1 & Hcalls1 & Hcase).
    destruct (IH w1) as (sent2 & calls2 & w2 & Hrest & Hposted2 & Hcalls2 & Hs & Hc & Hall).
    exists (sent1 ++ sent2), (calls1 ++ calls2), w2.
    split; [simpl; unfold mbind, M_bind; rewrite Hrun; exact Hrest|].
    split; [rewrite Hposted2, Hposted1, app_assoc; reflexivity|].
    split; [rewrite Hcalls2, Hcalls1, app_assoc; reflexivity|].
    assert (Htail : Forall (alert_of cfg (c :: containers)) sent2).
    { eapply Forall_impl; [exact Hall|].
      intros r (c' & body & Hin & Hge & ->). exists c', body.
      split; [right; exact Hin | split; [exact Hge | reflexivity]]. }
    unfold noisy in *. simpl List.filter.
    destruct (Z.leb_spec (RESTART_THRESHOLD cfg) (container_count c)) as [Hge|Hlow].
    + destruct Hcase as [Hlen [->|(body & ->)]]; rewrite !length_app; simpl.
      * split; [lia|]. split; [lia | exact Htail].
      * split; [lia|]. split; [lia|]. constructor; [|exact Htail].
        exists c, body. split; [left | split; [exact Hge | reflexivity]].
    + destruct Hcase as (-> & -> & _). simpl. split; [lia|]. split; [lia | exact Htail].
Qed.

(** One container status at or above the threshold: the processing
    never raises, posts nothing or the alert of the status, and runs
    [kubectl] not at all or once for the logs of the container. *)
Lemma process_container_each (namespace name : str) (container : ContainerStatus)
    (w : World) :
  (RESTART_THRESHOLD cfg <= container_count container)%Z ->
  exists sent calls w',
    process_container cfg env format_rate namespace name container w = (Ok tt, w') /\
    posted w' = posted w ++ sent /\
    kubectl_calls w' = kubectl_calls w ++ calls /\
    alert_or_nothing cfg container sent /\
    fetch_or_nothing namespace name container calls.
Proof.
  intros Hge.
  assert (Hrun : exists calls w',
            process_container cfg env format_rate namespace name container w
            = (Ok tt, w') /\
            kubectl_calls w' = kubectl_calls w ++ calls /\
            fetch_or_nothing namespace name container calls).
  { unfold process_container.
    fold (container_count container). fold (container_key namespace name container).
    destruct (Z.leb_spec (RESTART_THRESHOLD cfg) (container_count container)); [|lia].
    set (key := container_key namespace name container).
    unfold mbind at 1. unfold M_bind at 1.
    rewrite analyze_restart_pattern_run. cbv beta iota zeta.
    unfold mbind at 1. unfold M_bind at 1.
    match goal with
    | |- context [collect_log_snippet env ?ns ?n ?c key ?w1] =>
        destruct (collect_log_snippet_run env ns n c key w1)
          as (snippet & w2 & -> & _ & _ & _ & Hcase)
    end.
    unfold mbind at 1. unfold M_bind at 1.
    match goal with
    | |- context [send_ntfy_notification cfg env ?t ?m ?p ?g w2] =>
        destruct (send_ntfy_notification_run t m p g w2)
          as (ok & w3 & -> & _ & _ & Hcalls)
    end.
    step.
    assert (Hk : kubectl_calls w2 = kubectl_calls w \/
                 kubectl_calls w2
                 = kubectl_calls w
                     ++ [(namespace, name, default (lit "unknown") (c_name container),
                          50%Z)])
      by (destruct Hcase as [(_ & _ & Hk)|(_ & _ & Hk)]; [exact Hk | right; exact Hk]).
    destruct Hk as [Hk|Hk].
    - exists [], w3. split; [reflexivity|].
      split; [rewrite app_nil_r; congruence | left; reflexivity].
    - eexists _, w3. split; [reflexivity|].
      split; [rewrite Hcalls; exact Hk | right; reflexivity]. }
  destruct Hrun as (calls & w' & Hrun & Hcalls & Hfetch).
  destruct (process_container_alert cfg env format_rate namespace name container w Hge)
    as (sent & Hposted & Hsent).
  rewrite Hrun in Hposted. cbn [snd] in Hposted.
  exists sent, calls, w'. split; [exact Hrun|]. split; [exact Hposted|].
  split; [exact Hcalls|]. split; [exact Hsent | exact Hfetch].
Qed.

(** The loop over the container statuses of a pod, status by status:
    each one at or above the threshold contributes, in order, its part
    of what is posted and its part of the [kubectl] invocations. *)
Lemma for_each_container_each (namespace name : str)
    (containers : list ContainerStatus) (w : World) :
  exists alerts fetches w',
    for_each containers (process_container cfg env format_rate namespace name) w
    = (Ok tt, w') /\
    posted w' = posted w ++ concat alerts /\
    kubectl_calls w' = kubectl_calls w ++ concat fetches /\
    Forall2 (alert_or_nothing cfg) (noisy cfg containers) alerts /\
    Forall2 (fetch_or_nothing namespace name) (noisy cfg containers) fetches.
Proof.
  revert w. induction containers as [|c containers IH]; intros w.
  - exists [], [], w. simpl. rewrite !app_nil_r.
    repeat split; constructor.
  - unfold noisy in *. simpl List.filter.
    destruct (Z.leb_spec (RESTART_THRESHOLD cfg) (container_count c)) as [Hge|Hlow].
    + destruct (process_container_each namespace name c w Hge)
        as (sent & calls & w1 & Hrun & Hposted1 & Hcalls1 & Hsent & Hfetch).
      destruct (IH w1)
        as (alerts & fetches & w2 & Hrest & Hposted2 & Hcalls2 & Halerts & Hfetches).
      exists (sent :: alerts), (calls :: fetches), w2.
      split; [simpl; unfold mbind, M_bind; rewrite Hrun; exact Hrest|].
      split; [simpl; rewrite Hposted2, Hposted1, app_assoc; reflexivity|].
      split; [simpl; rewrite Hcalls2, Hcalls1, app_assoc; reflexivity|].
      split; constructor; assumption.
    + destruct (IH w)
        as (alerts & fetches & w2 & Hrest & Hposted2 & Hcalls2 & Halerts & Hfetches).
      exists alerts, fetches, w2.
      split; [|split; [exact Hposted2 | split; [exact Hcalls2 | split; assumption]]].
      simpl. unfold mbind, M_bind. unfold process_container at 1.
      fold (container_count c).
      destruct (Z.leb_spec (RESTART_THRESHOLD cfg) (container_count c)); [lia|].
      exact Hrest.
Qed.

(** What [process_pod_event] comes to on a pod snapshot. *)
Lemma process_pod_event_run (pod : Pod) (w : World) :
  exists alerts fetches w',
    process_pod_event cfg env format_rate (PodData pod) w = (Ok true, w') /\
    posted w' = posted w ++ concat alerts /\
    kubectl_calls w' = kubectl_calls w ++ concat fetches /\
    Forall2 (alert_or_nothing cfg) (noisy cfg (pod_containers pod)) alerts /\
    Forall2 (fetch_or_nothing (pod_namespace pod) (pod_name pod))
      (noisy cfg (pod_containers pod)) fetches.
Proof.
  unfold process_pod_event. simpl event_dict.
  unfold try_except. unfold mbind at 1. unfold M_bind at 1.
  unfold mret at 1. unfold M_ret at 1. cbv beta iota zeta.
  unfold mbind at 1. unfold M_bind at 1. unfold logger_info at 1, modify at 1.
  cbv beta iota zeta.
  unfold mbind at 1. unfold M_bind at 1.
  match goal with
  | |- context [for_each ?l ?b ?w0] =>
      destruct (for_each_container_each (pod_namespace pod) (pod_name pod)
                  (pod_containers pod) w0)
        as (alerts & fetches & w' & Hrun & Hposted & Hcalls & Hrest);
      change (for_each l b w0) with
        (for_each (pod_containers pod)
           (process_container cfg env format_rate (pod_namespace pod) (pod_name pod))
           w0);
      rewrite Hrun
  end.
  exists alerts, fetches, w'. split; [reflexivity|].
  split; [exact Hposted|]. split; [exact Hcalls | exact Hrest].
Qed.

(** What [handle_pod_event] comes to on a request the decoder accepts. *)
Lemma handle_pod_event_run (request : FlaskRequest) (event : CloudEvent) (w : World) :
  from_http request = inr event ->
  match ce_data event with
  | PodData pod =>
      exists alerts fetches w',
        handle_pod_event cfg env from_http format_rate request w
        = (Ok (StatusOk, 200%Z), w') /\
        posted w' = posted w ++ concat alerts /\
        kubectl_calls w' = kubectl_calls w ++ concat fetches /\
        Forall2 (alert_or_nothing cfg) (noisy cfg (pod_containers pod)) alerts /\
        Forall2 (fetch_or_nothing (pod_namespace pod) (pod_name pod))
          (noisy cfg (pod_containers pod)) fetches
  | NotADict =>
      exists w',
        handle_pod_event cfg env from_http format_rate request w
        = (Ok (StatusError None, 500%Z), w') /\
        quiet w w'
  end.
Proof.
  intros Hdecode.
  assert (Hstart : forall w0,
    handle_pod_event cfg env from_http format_rate request w0
    = let (r, w1) :=
        process_pod_event cfg env format_rate (ce_data event)
          (add_log (LogInfo (lit "Recebido evento de Pod: " ++ ce_type event)) w0) in
      match r with
      | Ok true => (Ok (StatusOk, 200%Z), w1)
      | Ok false => (Ok (StatusError None, 500%Z), w1)
      | Raise e =>
          (Ok (StatusError (Some (exn_text e)), 500%Z),
           add_log (LogError (lit "Erro ao processar requisi" ++ [231%N; 227%N]
                                ++ lit "o: " ++ exn_text e)) w1)
      end).
  { intros w0. unfold handle_pod_event. rewrite Hdecode. step.
    destruct (process_pod_event cfg env format_rate (ce_data event) _)
      as [[[|]|e] w1]; reflexivity. }
  rewrite Hstart. clear Hstart.
  destruct (ce_data event) as [|pod].
  - unfold process_pod_event, event_dict. step.
    eexists. split; [reflexivity|]. repeat split.
  - match goal with
    | |- context [process_pod_event cfg env format_rate (PodData pod) ?w0] =>
        destruct (process_pod_event_run pod w0)
          as (alerts & fetches & w' & -> & Hposted & Hcalls & Hrest)
    end.
    exists alerts, fetches, w'. split; [reflexivity|].
    split; [exact Hposted|]. split; [exact Hcalls | exact Hrest].
Qed.

(** An event the decoder accepts is modelled with its data either a pod
    snapshot whose fields are absent or typed as the ingest contract has
    them (names are strings, restart counts integers, the container
    statuses a list), or not a dictionary at all; instants are unbounded.
    On such an event the handler always answers, whatever [kubectl] and
    the transport do.  When the data is a pod snapshot the answer is 200
    with status ok; what is posted meanwhile is made, in the order of
    the container statuses at or above the threshold, of one part for
    each of them, which is empty or the alert of that status alone, and
    the [kubectl] invocations are made in the same way of one part for
    each, which is empty or the one fetch of the logs of that container.
    When the data is not a dictionary the answer is 500 without a
    message, and nothing is recorded, fetched or posted. *)
Theorem handle_pod_event_answers (request : FlaskRequest) (event : CloudEvent)
    (w : World) :
  from_http request = inr event ->
  let out := handle_pod_event cfg env from_http format_rate request w in
  match ce_data event with
  | PodData pod =>
      fst out = Ok (StatusOk, 200%Z) /\
      exists alerts fetches,
        posted (snd out) = posted w ++ concat alerts /\
        kubectl_calls (snd out) = kubectl_calls w ++ concat fetches /\
        Forall2 (alert_or_nothing cfg) (noisy cfg (pod_containers pod)) alerts /\
        Forall2 (fetch_or_nothing (pod_namespace pod) (pod_name pod))
          (noisy cfg (pod_containers pod)) fetches
  | NotADict =>
      fst out = Ok (StatusError None, 500%Z) /\ quiet w (snd out)
  end.
Proof.
  intros Hdecode. cbn zeta.
  pose proof (handle_pod_event_run request event w Hdecode) as Hrun.
  destruct (ce_data event) as [|pod].
  - destruct Hrun as (w' & -> & Hquiet). split; [reflexivity | exact Hquiet].
  - destruct Hrun as (alerts & fetches & w' & -> & Hrest).
    split; [reflexivity|]. exists alerts, fetches. exact Hrest.
Qed.

End Effects.

(** With [kubectl] absent and the transport down, an event with a
    container at 8 restarts is still answered 200: the one alert is
    attempted and fails, and [kubectl] is tried once. *)
Lemma handle_pod_event_answers_witness :
  let out := handle_pod_event default_config hostile_env example_from_http
               example_format_rate (example_request [8%N]) initial_world in
  fst out = Ok (StatusOk, 200%Z) /\
  length (posted (snd out)) = 1 /\ length (kubectl_calls (snd out)) = 1.
Proof.
  cbn zeta.
  pose proof (handle_pod_event_answers default_config hostile_env example_from_http
                example_format_rate (example_request [8%N])
                {| ce_type := lit "dev.knative.apiserver.resource.update";
                   ce_data := PodData (example_pod 8) |}
                initial_world eq_refl) as [Hanswer _].
  split; [exact Hanswer|]. split; vm_compute; reflexivity.
Defined.

(** ** The sign of the rate *)

Section RateSign.

Variable cfg : Config.
Variable env : Env.

Lemma rate_of_sign (history : list Observation) :
  (0 <= rate_of history)%Q /\
  ((0 < rate_of history)%Q <->
   (2 <= length history)%nat /\ (0 < elapsed_minutes history)%Q).
Proof.
  unfold rate_of.
  destruct (decide (1 < length history)%nat) as [Hlen|Hlen].
  - destruct (Qlt_le_dec 0 (elapsed_minutes history)) as [Hpos|Hle].
    + assert (Hrate : (0 < inject_Z (Z.of_nat (length history))
                           / elapsed_minutes history)%Q).
      { apply Qlt_shift_div_l; [exact Hpos|]. rewrite Qmult_0_l.
        unfold Qlt, inject_Z. simpl. lia. }
      split; [apply Qlt_le_weak, Hrate|]. split; [intros _; split; [lia|exact Hpos]|].
      intros _. exact Hrate.
    + split; [apply Qle_refl|]. split.
      * intros H. destruct (Qlt_irrefl 0 H).
      * intros [_ Hpos]. destruct (Qlt_not_le _ _ Hpos Hle).
  - split; [apply Qle_refl|]. split.
    + intros H. destruct (Qlt_irrefl 0 H).
    + intros [Hge _]. lia.
Qed.

(** The rate the analysis returns is never negative, even when the
    clock steps back between two readings; it is positive exactly when
    at least two observations are retained and the last one is later
    than the first. *)
Theorem analyze_restart_pattern_rate_sign (pod_key : str) (count : Z) (w : World) :
  let out := analyze_restart_pattern cfg env pod_key count w in
  let history := restart_history (snd out) !!! pod_key in
  exists rate,
    fst out = Ok rate /\
    (0 <= rate)%Q /\
    ((0 < rate)%Q <-> (2 <= length history)%nat /\ (0 < elapsed_minutes history)%Q).
Proof.
  cbn zeta. rewrite analyze_restart_pattern_result.
  eexists. split; [reflexivity|]. apply rate_of_sign.
Qed.

End RateSign.

(** ** Recording and reporting *)

Section Reporting.

Variable cfg : Config.
Variable env : Env.

Lemma retained_positive_window (now : datetime) (count : Z) (old : list Observation) :
  (0 < TIME_WINDOW_MINUTES cfg)%Z ->
  retained cfg now count old
  = List.filter
      (fun r => (now - timedelta_minutes (TIME_WINDOW_MINUTES cfg) <? timestamp r)%Z) old
    ++ [{| timestamp := now; restart_count := count |}].
Proof.
  intros Hpos. unfold retained. rewrite List.filter_app. simpl.
  destruct (Z.ltb_spec (now - timedelta_minutes (TIME_WINDOW_MINUTES cfg)) now)
    as [_|Hle]; [reflexivity|].
  unfold timedelta_minutes in Hle. lia.
Qed.

Lemma retained_no_window (now : datetime) (count : Z) (old : list Observation) :
  (TIME_WINDOW_MINUTES cfg <= 0)%Z ->
  Forall (fun r => (timestamp r <= now)%Z) old ->
  retained cfg now count old = [].
Proof.
  intros Hw Hold. unfold retained. rewrite List.filter_app. simpl.
  destruct (Z.ltb_spec (now - timedelta_minutes (TIME_WINDOW_MINUTES cfg)) now)
    as [Hlt|_]; [unfold timedelta_minutes in Hlt; lia|].
  rewrite app_nil_r.
  induction Hold as [|r old Hr _ IH]; [reflexivity|]. simpl.
  destruct (Z.ltb_spec (now - timedelta_minutes (TIME_WINDOW_MINUTES cfg)) (timestamp r))
    as [Hlt|_]; [unfold timedelta_minutes in Hlt; lia | exact IH].
Qed.

(** Recording, then reporting: with a positive window, right after the
    analysis of a key [/stats] reports that key with the restart count
    just recorded as its last count, the instant of the analysis as its
    last-seen time, and between 1 and one more than the events stored
    before. *)
Theorem analyze_then_stats (pod_key : str) (count : Z) (w : World) :
  (0 < TIME_WINDOW_MINUTES cfg)%Z ->
  let w' := snd (analyze_restart_pattern cfg env pod_key count w) in
  exists report entry,
    fst (stats w') = Ok (report, 200%Z) /\
    report !! pod_key = Some entry /\
    last_restart_count entry = count /\
    last_seen entry = clock env (tick w) /\
    1 <= total_events entry <= S (length (restart_history w !!! pod_key)).
Proof.
  intros Hpos. cbn zeta. rewrite analyze_restart_pattern_run. cbn zeta.
  rewrite (retained_positive_window _ _ _ Hpos).
  set (kept := List.filter _ _).
  assert (Hkept : length kept <= length (restart_history w !!! pod_key))
    by apply List.filter_length_le.
  eexists. exists {| total_events := length (kept ++ [{| timestamp := clock env (tick w);
                                                        restart_count := count |}]);
                     last_restart_count := count;
                     last_seen := clock env (tick w) |}.
  split; [reflexivity|]. split.
  - simpl. rewrite lookup_omap, lookup_insert_eq. simpl.
    unfold stats_entry. rewrite last_snoc. reflexivity.
  - simpl. rewrite length_app. simpl. repeat split; lia.
Qed.

(** With a window of 0 minutes or less, the observation just recorded
    is pruned at once (as long as no stored timestamp lies in the
    future): the key is left with an empty list, the rate is 0, [/stats]
    does not report the key, and [/health] counts it all the same. *)
Theorem analyze_without_window (pod_key : str) (count : Z) (w : World) :
  (TIME_WINDOW_MINUTES cfg <= 0)%Z ->
  Forall (fun r => (timestamp r <= clock env (tick w))%Z)
    (restart_history w !!! pod_key) ->
  let out := analyze_restart_pattern cfg env pod_key count w in
  fst out = Ok 0%Q /\
  restart_history (snd out) !! pod_key = Some [] /\
  (exists report, fst (stats (snd out)) = Ok (report, 200%Z) /\ report !! pod_key = None) /\
  (exists body,
      fst (health cfg (snd out)) = Ok (body, 200%Z) /\
      1 <= tracked_pods body /\ pod_key ∈ dom (restart_history (snd out))).
Proof.
  intros Hw Hold. cbn zeta. rewrite analyze_restart_pattern_run. cbn zeta.
  rewrite (retained_no_window _ _ _ Hw Hold). simpl.
  split; [reflexivity|]. split; [apply lookup_insert_eq|]. split.
  - eexists. split; [reflexivity|]. rewrite lookup_omap, lookup_insert_eq. reflexivity.
  - eexists. split; [reflexivity|]. simpl.
    assert (Hin : pod_key ∈ dom (<[pod_key := @nil Observation]> (restart_history w)))
      by (apply elem_of_dom; rewrite lookup_insert_eq; eauto).
    split; [|exact Hin].
    rewrite <- size_dom.
    destruct (decide (size (dom (<[pod_key := @nil Observation]> (restart_history w))) = 0))
      as [Hz|]; [|lia].
    apply size_empty_inv in Hz. apply Hz in Hin.
    destruct (not_elem_of_empty (C:=gset (list N)) pod_key Hin).
Qed.

End Reporting.

Lemma analyze_then_stats_witness :
  let w' := snd (analyze_restart_pattern default_config scenario_env scenario_key 8
                   scenario_two) in
  exists report,
    fst (stats w') = Ok (report, 200%Z) /\
    report !! scenario_key
    = Some {| total_events := 3; last_restart_count := 8%Z;
              last_seen := 600000000%Z |}.
Proof.
  cbn zeta.
  destruct (analyze_then_stats default_config scenario_env scenario_key 8 scenario_two)
    as (report & entry & Hstats & Hentry & _); [reflexivity|].
  exists report. split; [exact Hstats|].
  vm_compute in Hstats. injection Hstats as <-. vm_compute. reflexivity.
Defined.

Lemma analyze_without_window_witness :
  let out := analyze_restart_pattern zero_window_config scenario_env scenario_key 8
               initial_world in
  fst out = Ok 0%Q /\ restart_history (snd out) !! scenario_key = Some [].
Proof.
  destruct (analyze_without_window zero_window_config scenario_env scenario_key 8
              initial_world) as (Hrate & Hlist & _).
  - vm_compute. discriminate.
  - constructor.
  - split; [exact Hrate | exact Hlist].
Defined.

(** ** Keys are never dropped *)

#[local] Instance keys_kept_tolerant : Tolerant keys_kept.
Proof.
  split; [split|..]; unfold keys_kept.
  - intros w. reflexivity.
  - intros w1 w2 w3 H12 H23. transitivity (dom (restart_history w2)); assumption.
  - intros w. reflexivity.
  - intros r w. reflexivity.
Qed.

Lemma keys_kept_set_restart_history (key : str) (h : list Observation) (w : World) :
  keys_kept w (set_restart_history (<[key := h]> (restart_history w)) w).
Proof.
  unfold keys_kept. simpl. rewrite dom_insert_L. apply union_subseteq_r.
Qed.

Section Keys.

Variable cfg : Config.
Variable env : Env.
Variable from_http : FlaskRequest -> exn + CloudEvent.
Variable format_rate : Q -> str.

Lemma handle_pod_event_keys_kept (request : FlaskRequest) :
  preserves keys_kept (handle_pod_event cfg env from_http format_rate request).
Proof.
  unfold handle_pod_event.
  apply preserves_try_except; [apply _| |].
  - destruct (from_http request) as [e|event].
    + apply preserves_raise_bind, _.
    + apply preserves_mret_bind.
      apply preserves_bind; [apply _|apply preserves_logger_info, _|]. intros _.
      apply preserves_bind; [apply _| |intros [|]; apply preserves_mret, _].
      unfold process_pod_event. apply preserves_try_except; [apply _| |].
      * destruct (ce_data event) as [|pod]; simpl event_dict.
        { apply preserves_raise_bind, _. }
        apply preserves_mret_bind.
        apply preserves_bind; [apply _|apply preserves_logger_info, _|]. intros _.
        apply preserves_bind; [apply _| |intros _; apply preserves_mret, _].
        apply preserves_for_each; [apply _|]. intros container _.
        apply preserves_process_container; [apply _| | | |]; intros.
        -- unfold keys_kept. reflexivity.
        -- unfold keys_kept. reflexivity.
        -- apply keys_kept_set_restart_history.
        -- unfold keys_kept. reflexivity.
      * intros e. apply preserves_bind; [apply _|apply preserves_logger_error, _|].
        intros _. apply preserves_mret, _.
  - intros e. apply preserves_bind; [apply _|apply preserves_logger_error, _|].
    intros _. apply preserves_mret, _.
Qed.

(** No request ever drops a key of [restart_history]: whatever
    [POST /pods] requests are served, every key tracked before is tracked
    after, so the [tracked_pods] figure of [/health] never goes down. *)
Theorem served_keys_are_kept (requests : list FlaskRequest) (w : World) :
  let w' := snd (serve cfg env from_http format_rate requests w) in
  dom (restart_history w) ⊆ dom (restart_history w') /\
  exists before after,
    fst (health cfg w) = Ok (before, 200%Z) /\
    fst (health cfg w') = Ok (after, 200%Z) /\
    tracked_pods before <= tracked_pods after.
Proof.
  cbn zeta.
  assert (Hkept : keys_kept w (snd (serve cfg env from_http format_rate requests w))).
  { revert w. change (preserves keys_kept (serve cfg env from_http format_rate requests)).
    apply preserves_for_each; [apply _|]. intros request _.
    apply preserves_bind; [apply _|apply handle_pod_event_keys_kept|].
    intros ?. apply preserves_mret, _. }
  split; [exact Hkept|].
  do 2 eexists. split; [reflexivity|]. split; [reflexivity|]. simpl.
  rewrite <- !size_dom. apply subseteq_size, Hkept.
Qed.

End Keys.

(** ** Keys of distinct containers *)

Lemma split_at_separator {A} (x : A) (l1 l2 r1 r2 : list A) :
  x ∉ l1 -> x ∉ l2 -> l1 ++ x :: r1 = l2 ++ x :: r2 -> l1 = l2 /\ r1 = r2.
Proof.
  revert l2. induction l1 as [|a l1 IH]; intros [|b l2] H1 H2 Heq; simpl in Heq.
  - injection Heq as <-. split; reflexivity.
  - injection Heq as <- _. destruct H2. left.
  - injection Heq as -> _. destruct H1. left.
  - injection Heq as <- Heq.
    destruct (IH l2) as [-> ->]; [| |exact Heq|split; reflexivity].
    + intros Hin. apply H1. right. exact Hin.
    + intros Hin. apply H2. right. exact Hin.
Qed.

(** Two containers have the same key only if they are the same
    container of the same pod of the same namespace, provided the
    namespaces and the pod names hold no slash (code point 47), as
    Kubernetes names do not. *)
Theorem pod_key_of_injective (namespace name container_name
                              namespace' name' container_name' : str) :
  47%N ∉ namespace -> 47%N ∉ name -> 47%N ∉ namespace' -> 47%N ∉ name' ->
  pod_key_of namespace name container_name
  = pod_key_of namespace' name' container_name' ->
  namespace = namespace' /\ name = name' /\ container_name = container_name'.
Proof.
  intros Hns Hname Hns' Hname' Hkey. unfold pod_key_of in Hkey.
  change (lit "/") with [47%N] in Hkey. simpl in Hkey.
  apply split_at_separator in Hkey as [-> Hrest]; [|assumption..].
  apply split_at_separator in Hrest as [-> ->]; [|assumption..].
  repeat split.
Qed.

Lemma pod_key_of_injective_witness :
  pod_key_of (lit "prod") (lit "api-7f") (lit "app") = scenario_key /\
  lit "prod" = lit "prod" /\ lit "api-7f" = lit "api-7f" /\ lit "app" = lit "app".
Proof.
  split; [reflexivity|].
  apply (pod_key_of_injective (lit "prod") (lit "api-7f") (lit "app")
           (lit "prod") (lit "api-7f") (lit "app"));
    try (intros Hin; apply list_elem_of_In in Hin; vm_compute in Hin;
         repeat (destruct Hin as [Hin|Hin]; [discriminate|]); exact Hin).
  reflexivity.
Defined.

(** ** From an event to the report *)

Section RoundTrip.

Variable cfg : Config.
Variable env : Env.
Variable from_http : FlaskRequest -> exn + CloudEvent.
Variable format_rate : Q -> str.

(** The world in which the loop over the container statuses of a
    decoded pod snapshot ends is the world the handler ends in. *)
Lemma handle_pod_event_world (request : FlaskRequest) (event : CloudEvent)
    (pod : Pod) (w : World) :
  from_http request = inr event ->
  ce_data event = PodData pod ->
  exists w0,
    restart_history w0 = restart_history w /\
    snd (handle_pod_event cfg env from_http format_rate request w)
    = snd (for_each (pod_containers pod)
             (process_container cfg env format_rate (pod_namespace pod) (pod_name pod))
             w0).
Proof.
  intros Hdecode Hdata.
  exists (add_log (LogInfo (lit "Pod restart check: " ++ pod_namespace pod ++ lit "/"
                              ++ pod_name pod))
            (add_log (LogInfo (lit "Recebido evento de Pod: " ++ ce_type event)) w)).
  split; [reflexivity|].
  unfold handle_pod_event, process_pod_event. rewrite Hdecode. step. rewrite Hdata.
  unfold event_dict. step.
  match goal with
  | |- context [for_each ?l ?b ?w0] =>
      destruct (for_each_container_run cfg env format_rate (pod_namespace pod)
                  (pod_name pod) (pod_containers pod) w0)
        as (sent & calls & w' & Hrun & _);
      change (for_each l b w0) with
        (for_each (pod_containers pod)
           (process_container cfg env format_rate (pod_namespace pod) (pod_name pod))
           w0);
      rewrite Hrun
  end.
  symmetry. exact (f_equal snd Hrun).
Qed.

Lemma for_each_app {A} (l1 l2 : list A) (body : A -> M unit) (w w1 : World) :
  for_each l1 body w = (Ok tt, w1) ->
  for_each (l1 ++ l2) body w = for_each l2 body w1.
Proof.
  revert w. induction l1 as [|x l1 IH]; intros w Hrun; simpl in *.
  - injection Hrun as <-. reflexivity.
  - unfold mbind, M_bind in *. destruct (body x w) as [[[]|e] w0]; [|discriminate].
    apply IH, Hrun.
Qed.

(** From an event to the report: with a positive window, after a pod
    snapshot whose container statuses bear distinct keys has been
    handled, [/stats] reports each of its containers at or above the
    threshold, with the restart count of the snapshot as last count. *)
Theorem handled_container_is_reported (request : FlaskRequest) (event : CloudEvent)
    (pod : Pod) (container : ContainerStatus) (w : World) :
  from_http request = inr event ->
  ce_data event = PodData pod ->
  (0 < TIME_WINDOW_MINUTES cfg)%Z ->
  NoDup (event_keys (PodData pod)) ->
  container ∈ pod_containers pod ->
  (RESTART_THRESHOLD cfg <= container_count container)%Z ->
  let w' := snd (handle_pod_event cfg env from_http format_rate request w) in
  exists report entry,
    fst (stats w') = Ok (report, 200%Z) /\
    report !! container_key (pod_namespace pod) (pod_name pod) container = Some entry /\
    last_restart_count entry = container_count container /\
    1 <= total_events entry.
Proof.
  intros Hdecode Hdata Hwindow Hnodup Hin Hge. cbn zeta.
  destruct (handle_pod_event_world request event pod w Hdecode Hdata) as (w0 & _ & ->).
  set (key := container_key (pod_namespace pod) (pod_name pod) container).
  set (body := process_container cfg env format_rate (pod_namespace pod) (pod_name pod)).
  apply list_elem_of_split in Hin as (l1 & l2 & Hsplit).
  simpl in Hnodup. rewrite Hsplit in Hnodup |- *.
  destruct (for_each_container_run cfg env format_rate (pod_namespace pod)
              (pod_name pod) l1 w0) as (? & ? & w1 & Hl1 & _).
  rewrite (for_each_app l1 (container :: l2) body w0 w1 Hl1).
  simpl for_each. unfold mbind at 1. unfold M_bind at 1.
  pose proof (process_container_records cfg env format_rate (pod_namespace pod)
                (pod_name pod) container w1 Hge) as Hrec.
  destruct (process_container_run cfg env format_rate (pod_namespace pod)
              (pod_name pod) container w1) as (? & ? & w2 & Hc & _).
  fold body in Hc, Hrec. rewrite Hc in Hrec |- *. cbn [snd] in Hrec.
  rewrite (retained_positive_window cfg _ _ _ Hwindow) in Hrec.
  assert (Hrest : untouched key w2 (snd (for_each l2 body w2))).
  { revert w2 Hc Hrec. intros w2 _ _. revert w2.
    change (preserves (untouched key) (for_each l2 body)).
    apply preserves_for_each; [apply _|]. intros other Hother.
    apply process_container_untouched. left. intros Hsame.
    rewrite map_app in Hnodup. simpl in Hnodup.
    apply NoDup_app in Hnodup as (_ & _ & Hnodup).
    apply NoDup_cons in Hnodup as [Hfresh _]. apply Hfresh.
    fold key. rewrite <- Hsame.
    apply list_elem_of_In, List.in_map, list_elem_of_In, Hother. }
  destruct Hrest as (Hkeep & _).
  fold key in Hrec.
  match type of Hrec with
  | _ = Some (?kept ++ [?obs]) =>
      exists (omap stats_entry (restart_history (snd (for_each l2 body w2)))),
        {| total_events := length (kept ++ [obs]);
           last_restart_count := container_count container;
           last_seen := timestamp obs |}
  end.
  split; [reflexivity|]. split.
  - rewrite lookup_omap, Hkeep, Hrec. simpl. unfold stats_entry.
    rewrite last_snoc. reflexivity.
  - simpl. rewrite length_app. simpl. split; [reflexivity | lia].
Qed.

End RoundTrip.

Lemma handled_container_is_reported_witness :
  let w' := snd (handle_pod_event default_config hostile_env example_from_http
                   example_format_rate (example_request [8%N]) initial_world) in
  exists report entry,
    fst (stats w') = Ok (report, 200%Z) /\
    report !! scenario_key = Some entry /\
    last_restart_count entry = 8%Z /\ 1 <= total_events entry.
Proof.
  apply (handled_container_is_reported default_config hostile_env example_from_http
           example_format_rate (example_request [8%N])
           {| ce_type := lit "dev.knative.apiserver.resource.update";
              ce_data := PodData (example_pod 8) |}
           (example_pod 8)
           {| c_name := Some (lit "app"); c_restartCount := Some 8%Z;
              c_state_waiting := None; c_lastState_terminated := None |}
           initial_world).
  - reflexivity.
  - reflexivity.
  - reflexivity.
  - simpl. repeat constructor. intros Hin. inversion Hin.
  - left.
  - vm_compute. discriminate.
Defined.

(** ** The outcome of a notification *)

Section Outcome.

Variable cfg : Config.
Variable env : Env.

(** Everything a call of the notifier does, in one equation. *)
Lemma send_ntfy_notification_outcome (title message priority : str) (tags : Tags)
    (w : World) :
  exists ok w' sent,
    send_ntfy_notification cfg env title message priority tags w = (Ok ok, w') /\
    restart_history w' = restart_history w /\
    last_log_collected w' = last_log_collected w /\
    kubectl_calls w' = kubectl_calls w /\
    posted w' = posted w ++ sent /\
    (sent = [] \/ exists body, sent = [ntfy_request cfg title priority tags body]).
Proof.
  destruct (send_ntfy_notification_run cfg env title message priority tags w)
    as (ok & w' & Hrun & Hhist & Hlast & Hcalls).
  pose proof (send_ntfy_notification_posted cfg env title message priority tags w)
    as Hposted.
  cbn zeta in Hposted. rewrite Hrun in Hposted. cbn [snd] in Hposted.
  destruct Hposted as [[_ Hnone]|(body & _ & Hsent)].
  - exists ok, w', []. rewrite app_nil_r. repeat split; auto.
  - exists ok, w', [ntfy_request cfg title priority tags body]. repeat split; eauto.
Qed.

(** The notifier reports success exactly when the message could be
    encoded and the transport answered with status 200: any other
    answer, 201 and 204 included, is reported as a failure. *)
Theorem send_ntfy_notification_success (title message priority : str) (tags : Tags)
    (w : World) :
  fst (send_ntfy_notification cfg env title message priority tags w) = Ok true <->
  exists body response,
    encode_utf8 message = Some body /\
    requests_post env (tick w) = inr response /\
    status_code response = 200%Z.
Proof.
  unfold send_ntfy_notification, encode. step.
  destruct (encode_utf8 message) as [body|]; step.
  - unfold post. step.
    destruct (requests_post env (tick w)) as [e|response]; step.
    + split; [intros [=] | intros (? & ? & _ & [=] & _)].
    + destruct (Z.eqb_spec (status_code response) 200) as [Hok|Hko]; step.
      * split; [intros _; eauto | reflexivity].
      * split; [intros [=] | intros (? & ? & _ & [= <-] & Hok); contradiction].
  - split; [intros [=] | intros (? & ? & [=] & _)].
Qed.

Lemma header_value_tags (title priority : str) (tags : Tags) (body : list N) :
  header_value (lit "Tags") (ntfy_request cfg title priority tags body)
  = if tags_truthy tags
    then Some (join (lit ",") (List.map ascii_ignore (tags_as_list tags)))
    else None.
Proof.
  unfold header_value, ntfy_request. cbn [req_headers app List.find fst].
  change (bool_decide (lit "Title" = lit "Tags")) with false.
  change (bool_decide (lit "Priority" = lit "Tags")) with false.
  change (bool_decide (lit "Content-Type" = lit "Tags")) with false.
  cbv iota. destruct (tags_truthy tags); [|reflexivity].
  cbn [List.find fst]. change (bool_decide (lit "Tags" = lit "Tags")) with true.
  reflexivity.
Qed.

(** A request posted by the notifier carries a Tags header exactly when
    the tags it was given are truthy: no tags, an empty list and an
    empty single tag give a request without that header; a single tag
    that is not a list goes out as itself, less its non-ASCII code
    points. *)
Theorem send_ntfy_notification_tags (title message priority : str) (tags : Tags)
    (w : World) :
  let out := send_ntfy_notification cfg env title message priority tags w in
  exists sent,
    posted (snd out) = posted w ++ sent /\
    length sent <= 1 /\
    Forall
      (fun r =>
         header_value (lit "Tags") r
         = match tags with
           | TagsNone => None
           | TagsList [] => None
           | TagsList (tag :: rest) =>
               Some (join (lit ",") (List.map ascii_ignore (tag :: rest)))
           | TagsOne [] => None
           | TagsOne tag => Some (ascii_ignore tag)
           end)
      sent.
Proof.
  cbn zeta.
  destruct (send_ntfy_notification_outcome title message priority tags w)
    as (ok & w' & sent & -> & _ & _ & _ & Hposted & Hsent).
  exists sent. cbn [snd]. split; [exact Hposted|].
  destruct Hsent as [->|(body & ->)]; [split; [simpl; lia | constructor]|].
  split; [simpl; lia|]. constructor; [|constructor].
  rewrite header_value_tags.
  destruct tags as [|[|tag rest]|[|c tag]]; reflexivity.
Qed.

End Outcome.

(** ** The test endpoint and the start *)

Section Diagnostics.

Variable cfg : Config.
Variable env : Env.
Variable strftime : datetime -> str.

(** [POST /test] always answers 200 with status ok, whether or not the
    notification went through.  It leaves both dictionaries alone, runs
    no [kubectl], and posts at most one request: the test notification,
    of priority default, tagged [bell] and [white_check_mark]. *)
Theorem test_notification_always_ok (w : World) :
  exists w' sent,
    test_notification cfg env strftime w
    = (Ok ({| test_status := lit "ok"; test_message := lit "Test notification sent" |},
           200%Z), w') /\
    restart_history w' = restart_history w /\
    last_log_collected w' = last_log_collected w /\
    kubectl_calls w' = kubectl_calls w /\
    posted w' = posted w ++ sent /\
    (sent = [] \/
     exists body,
       sent = [ntfy_request cfg (lit "TEST - Restart Tracker - " ++ CLUSTER_NAME cfg)
                 (lit "default") (TagsList [lit "bell"; lit "white_check_mark"]) body]).
Proof.
  unfold test_notification, datetime_now.
  unfold mbind at 1. unfold M_bind at 1. cbv beta iota zeta.
  unfold mbind at 1. unfold M_bind at 1. unfold gets at 1. cbv beta iota zeta.
  unfold mbind at 1. unfold M_bind at 1.
  match goal with
  | |- context [send_ntfy_notification cfg env ?t ?m ?p ?g ?w0] =>
      destruct (send_ntfy_notification_outcome cfg env t m p g w0)
        as (ok & w' & sent & -> & Hhist & Hlast & Hcalls & Hposted & Hsent)
  end.
  step. exists w', sent. split; [reflexivity|]. repeat split; assumption.
Qed.

(** Every call of the notifier writes one line to the log. *)
Lemma send_ntfy_notification_logged (title message priority : str) (tags : Tags)
    (w : World) :
  exists line,
    logged (snd (send_ntfy_notification cfg env title message priority tags w))
    = logged w ++ [line].
Proof.
  unfold send_ntfy_notification, encode. step.
  destruct (encode_utf8 message) as [body|]; step.
  - unfold post. step.
    destruct (requests_post env (tick w)) as [e|response]; step.
    + eexists. reflexivity.
    + destruct (status_code response =? 200)%Z; step; eexists; reflexivity.
  - eexists. reflexivity.
Qed.

(** The start of the process writes its six lines of configuration to
    the log and announces itself once, with priority low, tagged
    [rocket] and [information_source]; a notifier that fails does not
    stop the start, it only leaves its line in the log. *)
Theorem startup_announces_once (w : World) :
  exists w' sent line,
    startup cfg env strftime w = (Ok tt, w') /\
    logged w'
    = logged w
        ++ [LogInfo (lit "Iniciando Pod Restart Tracker");
            LogInfo (lit "Cluster: " ++ CLUSTER_NAME cfg);
            LogInfo (lit "ntfy URL: " ++ NTFY_URL cfg);
            LogInfo (lit "ntfy Topic: " ++ NTFY_TOPIC cfg);
            LogInfo (lit "Restart Threshold: " ++ str_of_int (RESTART_THRESHOLD cfg));
            LogInfo (lit "Time Window: " ++ str_of_int (TIME_WINDOW_MINUTES cfg)
                       ++ lit " minutos");
            line] /\
    restart_history w' = restart_history w /\
    posted w' = posted w ++ sent /\
    (sent = [] \/
     exists body,
       sent = [ntfy_request cfg (lit "Restart Tracker STARTED - " ++ CLUSTER_NAME cfg)
                 (lit "low") (TagsList [lit "rocket"; lit "information_source"]) body]).
Proof.
  unfold startup, datetime_now.
  do 7 (unfold mbind at 1; unfold M_bind at 1;
        try (unfold logger_info at 1; unfold modify at 1); cbv beta iota zeta).
  unfold mbind at 1. unfold M_bind at 1.
  match goal with
  | |- context [send_ntfy_notification cfg env ?t ?m ?p ?g ?w0] =>
      destruct (send_ntfy_notification_logged t m p g w0) as (line & Hlogged);
      destruct (send_ntfy_notification_outcome cfg env t m p g w0)
        as (ok & w' & sent & Hrun & Hhist & _ & _ & Hposted & Hsent);
      rewrite Hrun in Hlogged |- *
  end.
  step. cbn [snd] in Hlogged. exists w', sent, line. split; [reflexivity|].
  split.
  { rewrite Hlogged. simpl. rewrite <- !app_assoc. reflexivity. }
  split; [exact Hhist|]. split; [exact Hposted | exact Hsent].
Qed.

End Diagnostics.

(** ** The report and the count *)

(** [/stats] and [/health] read and change nothing.  [/stats] reports a
    key exactly when its list is not empty, with the length of the list
    as number of events and its last element as last count and last
    seen; so it never reports more keys than [/health] counts, and a key
    whose list was pruned to nothing is counted but not reported. *)
Theorem stats_against_health (cfg : Config) (w : World) :
  exists report body,
    stats w = (Ok (report, 200%Z), w) /\
    health cfg w = (Ok (body, 200%Z), w) /\
    tracked_pods body = size (restart_history w) /\
    size report <= tracked_pods body /\
    (forall key,
        report !! key = None <->
        restart_history w !! key = None \/ restart_history w !! key = Some []) /\
    (forall key entry,
        report !! key = Some entry ->
        exists history,
          restart_history w !! key = Some history /\
          total_events entry = length history /\
          1 <= total_events entry /\
          last history = Some {| timestamp := last_seen entry;
                                 restart_count := last_restart_count entry |}).
Proof.
  do 2 eexists. split; [reflexivity|]. split; [reflexivity|]. simpl.
  split; [reflexivity|]. split; [|split].
  - rewrite <- !size_dom. apply subseteq_size, dom_omap_subseteq.
  - intros key. rewrite lookup_omap.
    destruct (restart_history w !! key) as [history|]; simpl; [|tauto].
    unfold stats_entry. destruct history as [|r history] using rev_ind.
    + simpl. tauto.
    + rewrite last_snoc. split; [discriminate|].
      intros [[=]|[= Heq]]. destruct history; discriminate.
  - intros key entry. rewrite lookup_omap.
    destruct (restart_history w !! key) as [history|]; simpl; [|discriminate].
    unfold stats_entry. destruct (last history) as [r|] eqn:Hlast; [|discriminate].
    intros [= <-]. exists history. simpl. split; [reflexivity|].
    split; [reflexivity|]. split; [|destruct r; simpl; exact Hlast].
    destruct history; [discriminate | simpl; lia].
Qed.

(** ** The rate limit across two alerts *)

Section TwoAlerts.

Variable cfg : Config.
Variable env : Env.
Variable format_rate : Q -> str.

(** A call of the notifier asks the outside at most one question. *)
Lemma send_ntfy_notification_tick (title message priority : str) (tags : Tags)
    (w : World) :
  tick w <= tick (snd (send_ntfy_notification cfg env title message priority tags w))
         <= S (tick w).
Proof.
  unfold send_ntfy_notification, encode. step.
  destruct (encode_utf8 message) as [body|]; step; [|simpl; lia].
  unfold post. step.
  destruct (requests_post env (tick w)) as [e|response]; step; [simpl; lia|].
  destruct (status_code response =? 200)%Z; step; simpl; lia.
Qed.

(** The first alert of a key: the logs are fetched, and unless
    [kubectl] exits with code 0 and prints nothing, the reading of the
    clock that follows the fetch is recorded for the key. *)
Lemma process_container_first_alert (namespace name : str)
    (container : ContainerStatus) (w : World) :
  (RESTART_THRESHOLD cfg <= container_count container)%Z ->
  last_log_collected w !! container_key namespace name container = None ->
  (forall result,
      subprocess_run env (S (tick w)) = inr result ->
      returncode result = 0%Z -> stdout result <> []) ->
  exists w',
    process_container cfg env format_rate namespace name container w = (Ok tt, w') /\
    last_log_collected w' !! container_key namespace name container
    = Some (clock env (S (S (tick w)))) /\
    kubectl_calls w'
    = kubectl_calls w
        ++ [(namespace, name, default (lit "unknown") (c_name container), 50%Z)] /\
    3 + tick w <= tick w' <= 4 + tick w.
Proof.
  intros Hge Hnone Hlogs. unfold process_container.
  fold (container_count container). fold (container_key namespace name container).
  destruct (Z.leb_spec (RESTART_THRESHOLD cfg) (container_count container)); [|lia].
  set (key := container_key namespace name container) in *.
  unfold mbind at 1. unfold M_bind at 1.
  rewrite analyze_restart_pattern_run. cbv beta iota zeta.
  unfold mbind at 1. unfold M_bind at 1.
  match goal with
  | |- context [collect_log_snippet env ?ns ?n ?c key ?w1] =>
      assert (Hcollect : exists snippet w2,
                 collect_log_snippet env ns n c key w1 = (Ok snippet, w2) /\
                 last_log_collected w2 !! key = Some (clock env (S (S (tick w)))) /\
                 kubectl_calls w2 = kubectl_calls w ++ [(ns, n, c, 50%Z)] /\
                 tick w2 = 3 + tick w)
  end.
  { unfold collect_log_snippet. step. cbn [last_log_collected set_restart_history next_tick].
    rewrite Hnone. unfold get_pod_logs, kubectl_logs, datetime_now. step.
    cbn [tick set_restart_history next_tick].
    destruct (subprocess_run env (S (tick w))) as [e|result] eqn:Hrun; step.
    - do 2 eexists. split; [reflexivity|].
      split; [apply lookup_insert_eq | split; reflexivity].
    - destruct (Z.eqb_spec (returncode result) 0) as [Hrc|Hrc]; step.
      + destruct (bool_decide (stdout result = [])) eqn:Hempty; step.
        * apply bool_decide_eq_true in Hempty.
          destruct (Hlogs result eq_refl Hrc Hempty).
        * do 2 eexists. split; [reflexivity|].
          split; [apply lookup_insert_eq | split; reflexivity].
      + do 2 eexists. split; [reflexivity|].
        split; [apply lookup_insert_eq | split; reflexivity]. }
  destruct Hcollect as (snippet & w2 & -> & Hlast & Hcalls & Htick).
  unfold mbind at 1. unfold M_bind at 1.
  match goal with
  | |- context [send_ntfy_notification cfg env ?t ?m ?p ?g w2] =>
      pose proof (send_ntfy_notification_tick t m p g w2) as Htick3;
      destruct (send_ntfy_notification_run cfg env t m p g w2)
        as (ok & w3 & Hsend & _ & Hlast3 & Hcalls3);
      rewrite Hsend in Htick3 |- *
  end.
  step. cbn [snd] in Htick3. exists w3. split; [reflexivity|].
  rewrite Hlast3, Hcalls3. split; [exact Hlast|]. split; [exact Hcalls | lia].
Qed.

(** Two alerts of a fresh key in quick succession fetch its logs once:
    when the first fetch brings something back and the readings of the
    clock during the second alert are within 300 seconds of the one
    recorded by the first, the second alert runs no [kubectl] and keeps
    the recorded time. *)
Theorem second_alert_skips_log_fetch (namespace name : str)
    (container : ContainerStatus) (w : World) :
  (RESTART_THRESHOLD cfg <= container_count container)%Z ->
  last_log_collected w !! container_key namespace name container = None ->
  (forall result,
      subprocess_run env (S (tick w)) = inr result ->
      returncode result = 0%Z -> stdout result <> []) ->
  (forall j, 4 + tick w <= j <= 5 + tick w ->
             (clock env j - clock env (S (S (tick w))) <= 300 * 1000000)%Z) ->
  let w1 := snd (process_container cfg env format_rate namespace name container w) in
  let w2 := snd (process_container cfg env format_rate namespace name container w1) in
  kubectl_calls w1
  = kubectl_calls w
      ++ [(namespace, name, default (lit "unknown") (c_name container), 50%Z)] /\
  kubectl_calls w2 = kubectl_calls w1 /\
  last_log_collected w2 = last_log_collected w1.
Proof.
  intros Hge Hnone Hlogs Hclock. cbn zeta.
  destruct (process_container_first_alert namespace name container w Hge Hnone Hlogs)
    as (w1 & Hrun & Hlast & Hcalls & Htick).
  rewrite Hrun. cbn [snd].
  split; [exact Hcalls|].
  apply (process_container_skips_log_fetch cfg env format_rate namespace name container
           (clock env (S (S (tick w)))) w1 Hge Hlast).
  apply Hclock. lia.
Qed.

End TwoAlerts.

Lemma second_alert_skips_log_fetch_witness :
  let alert := process_container default_config brisk_env example_format_rate
                 (lit "prod") (lit "api-7f") noisy_container in
  let w1 := snd (alert initial_world) in
  let w2 := snd (alert w1) in
  length (kubectl_calls w1) = 1 /\ kubectl_calls w2 = kubectl_calls w1 /\
  last_log_collected w2 = last_log_collected w1.
Proof.
  cbn zeta.
  destruct (second_alert_skips_log_fetch default_config brisk_env example_format_rate
              (lit "prod") (lit "api-7f") noisy_container initial_world)
    as (Hfirst & Hsecond & Hlast).
  - vm_compute. discriminate.
  - reflexivity.
  - intros result [= <-] _. vm_compute. discriminate.
  - intros j Hj. simpl in *. lia.
  - split; [rewrite Hfirst; reflexivity|]. split; [exact Hsecond | exact Hlast].
Defined.

(** ** What pruning drops *)

Section Pruning.

Variable cfg : Config.
Variable env : Env.

Lemma filter_ascending_split (cutoff : Z) (history : list Observation) :
  ascending history ->
  exists dropped kept,
    history = dropped ++ kept /\
    List.filter (fun r => (cutoff <? timestamp r)%Z) history = kept /\
    Forall (fun r => (timestamp r <= cutoff)%Z) dropped /\
    Forall (fun r => (cutoff < timestamp r)%Z) kept.
Proof.
  unfold ascending. induction 1 as [|a l Hl IH Ha].
  - exists [], []. repeat split; constructor.
  - simpl. destruct (Z.ltb_spec cutoff (timestamp a)) as [Hin|Hout].
    + assert (Hall : Forall (fun r => (cutoff < timestamp r)%Z) l)
        by (eapply Forall_impl; [exact Ha | simpl; intros; lia]).
      exists [], (a :: l). split; [reflexivity|]. split.
      * f_equal. clear -Hall. induction Hall as [|b l Hb _ IHl]; [reflexivity|].
        simpl. destruct (Z.ltb_spec cutoff (timestamp b)); [|lia]. f_equal. exact IHl.
      * split; constructor; assumption.
    + destruct IH as (dropped & kept & -> & Hfilter & Hdropped & Hkept).
      exists (a :: dropped), kept. split; [reflexivity|]. split; [exact Hfilter|].
      split; [constructor; assumption | exact Hkept].
Qed.

(** Pruning drops the oldest observations and nothing else: with a
    positive window and a stored list in ascending order, the analysis
    leaves the stored list less a prefix, all of it at or before the
    cut-off, followed by the new observation; what is kept keeps its
    order. *)
Theorem analyze_restart_pattern_drops_prefix (pod_key : str) (count : Z) (w : World) :
  (0 < TIME_WINDOW_MINUTES cfg)%Z ->
  ascending (restart_history w !!! pod_key) ->
  let now := clock env (tick w) in
  let cutoff := (now - timedelta_minutes (TIME_WINDOW_MINUTES cfg))%Z in
  exists dropped kept,
    restart_history w !!! pod_key = dropped ++ kept /\
    restart_history (snd (analyze_restart_pattern cfg env pod_key count w)) !!! pod_key
    = kept ++ [{| timestamp := now; restart_count := count |}] /\
    Forall (fun r => (timestamp r <= cutoff)%Z) dropped /\
    Forall (fun r => (cutoff < timestamp r)%Z) kept.
Proof.
  intros Hwindow Hsorted. cbn zeta.
  rewrite analyze_restart_pattern_history, (retained_positive_window cfg _ _ _ Hwindow).
  destruct (filter_ascending_split
              (clock env (tick w) - timedelta_minutes (TIME_WINDOW_MINUTES cfg))
              (restart_history w !!! pod_key) Hsorted)
    as (dropped & kept & Hsplit & Hfilter & Hdropped & Hkept).
  exists dropped, kept. rewrite Hfilter. repeat split; assumption.
Qed.

End Pruning.

(** Readings forty minutes apart under a 60-minute window: the third
    analysis drops the first observation and keeps the second. *)
Lemma analyze_restart_pattern_drops_prefix_witness :
  let env := {| clock := fun i => (Z.of_nat i * 2400000000)%Z;
                subprocess_run := subprocess_run scenario_env;
                requests_post := requests_post scenario_env |} in
  let w2 := snd (record_calls default_config env scenario_key [6; 7]%Z initial_world) in
  (exists dropped kept,
      restart_history w2 !!! scenario_key = dropped ++ kept /\
      restart_history (snd (analyze_restart_pattern default_config env scenario_key 8 w2))
        !!! scenario_key
      = kept ++ [{| timestamp := 4800000000%Z; restart_count := 8%Z |}] /\
      Forall (fun r => (timestamp r <= 4800000000 - 3600000000)%Z) dropped /\
      Forall (fun r => (4800000000 - 3600000000 < timestamp r)%Z) kept) /\
  restart_history (snd (analyze_restart_pattern default_config env scenario_key 8 w2))
    !!! scenario_key
  = [{| timestamp := 2400000000%Z; restart_count := 7%Z |};
     {| timestamp := 4800000000%Z; restart_count := 8%Z |}].
Proof.
  cbn zeta. split; [|vm_compute; reflexivity].
  match goal with
  | |- context [analyze_restart_pattern ?c ?e ?k ?n ?w] =>
      apply (analyze_restart_pattern_drops_prefix c e k n w)
  end.
  - reflexivity.
  - vm_compute. repeat constructor; discriminate.
Defined.
